(** * MCP stdio conformance harness and schema linter (armish/hgnc.mcp)

    A shallow embedding of [test_mcp_stdio.py] (class [MCPStdioTester] and
    its [main]) and of [validate-mcp-schema.py] (the three [validate_*]
    functions, [get_mcp_capabilities] and [main]).

    Python values are modelled as the code sees them at run time:
    - a [str] is a list of Unicode code points;
    - a decoded JSON document is a [json] value; a Python [dict] is an
      association list in insertion order whose first binding of a key is
      the binding of that key;
    - an operation that Python may abort with an exception returns a
      [res]; handlers ([try] / [except]) are matches on it;
    - the subprocess is the environment: what [Popen] and [communicate]
      do on one call is an [outcome], and the operations the code performs
      on the process handle are recorded as a list of [proc_op].

    Printing is left out: [print] never changes a returned value, but the
    expressions evaluated inside a printed f-string are kept where they can
    raise. *)

From Stdlib Require Import String Ascii.
From Stdlib Require Import ZArith NArith Bool Lia SpecFloat List.
Import ListNotations.

Set Implicit Arguments.
Set Warnings "-register-all".

(* ================================================================= *)
(** ** Python text *)

Module PyStr.

Definition char := N.
Definition str := list char.

(** An ASCII literal as a [str]. *)
Definition lit (s : string) : str := map N_of_ascii (list_ascii_of_string s).

(** A literal written with ['] where the text has a double quote. *)
Definition jlit (s : string) : str :=
  map (fun c => if N.eqb c 39 then 34%N else c) (lit s).

Fixpoint eqb (a b : str) : bool :=
  match a, b with
  | [], [] => true
  | x :: a', y :: b' => N.eqb x y && eqb a' b'
  | _, _ => false
  end.

(** [str.isspace] on one code point: the characters [str.strip()] removes. *)
Definition isspace (c : char) : bool :=
  ((9 <=? c) && (c <=? 13) || (28 <=? c) && (c <=? 32)
   || (c =? 133) || (c =? 160) || (c =? 5760)
   || (8192 <=? c) && (c <=? 8202)
   || (c =? 8232) || (c =? 8233) || (c =? 8239) || (c =? 8287)
   || (c =? 12288))%N.

Fixpoint lstrip (s : str) : str :=
  match s with
  | c :: s' => if isspace c then lstrip s' else s
  | [] => []
  end.

Definition rstrip (s : str) : str := rev (lstrip (rev s)).

(** [s.strip()] *)
Definition strip (s : str) : str := rstrip (lstrip s).

(** [s.split(sep)] for a one-character separator: never the empty list. *)
Fixpoint split (sep : char) (s : str) : list str :=
  match s with
  | [] => [[]]
  | c :: s' =>
      if N.eqb c sep then [] :: split sep s'
      else match split sep s' with
           | w :: ws => (c :: w) :: ws
           | [] => [[c]]
           end
  end.

(** [s.startswith(p)] *)
Fixpoint startswith (s p : str) : bool :=
  match p, s with
  | [], _ => true
  | x :: p', y :: s' => N.eqb x y && startswith s' p'
  | _ :: _, [] => false
  end.

(** [sub in s] *)
Fixpoint contains (s sub : str) : bool :=
  startswith s sub
  || match s with
     | [] => false
     | _ :: s' => contains s' sub
     end.

Definition nl : char := 10%N.
Definition dquote : char := 34%N.


(** Decimal digits of a natural number, as [str(n)] prints an [int]. *)
Fixpoint digits (fuel n : nat) (acc : str) : str :=
  match fuel with
  | O => acc
  | S fuel' =>
      let d := N.of_nat (Nat.modulo n 10) in
      let acc' := (48 + d)%N :: acc in
      if Nat.leb n 9 then acc' else digits fuel' (Nat.div n 10) acc'
  end.

Definition of_nat (n : nat) : str := digits (S n) n [].

End PyStr.

Import PyStr.

(* ================================================================= *)
(** ** Decoded JSON documents and the Python operations on them *)

Inductive json : Type :=
| JNull
| JBool (b : bool)
| JInt (z : Z)
| JFloat (f : spec_float)
| JStr (s : str)
| JList (l : list json)
| JDict (d : list (str * json)).

Definition dict := list (str * json).

(** The exceptions the modelled expressions can raise. *)
Inductive exn : Type := TypeError | AttributeError | KeyError | IndexError.

Inductive res (A : Type) : Type :=
| Ok (a : A)
| Raise (e : exn).

Arguments Ok {A} a.
Arguments Raise {A} e.

Definition bind {A B} (m : res A) (k : A -> res B) : res B :=
  match m with
  | Ok a => k a
  | Raise e => Raise e
  end.

Notation "x <- m ;; k" := (bind m (fun x => k))
  (at level 61, m at next level, right associativity).

(** A loop whose body may raise: the first exception ends it. *)
Fixpoint mapM {A B} (f : A -> res B) (l : list A) : res (list B) :=
  match l with
  | [] => Ok []
  | a :: l' => b <- f a ;; bs <- mapM f l' ;; Ok (b :: bs)
  end.

Module Py.

(** [d.get(k)] on a dict: the binding of [k], if any. *)
Fixpoint lookup (d : dict) (k : str) : option json :=
  match d with
  | [] => None
  | (k', v) :: d' => if PyStr.eqb k' k then Some v else lookup d' k
  end.

Definition has_key (d : dict) (k : str) : bool :=
  match lookup d k with Some _ => true | None => false end.

Fixpoint mem (k : str) (ks : list str) : bool :=
  match ks with
  | [] => false
  | k' :: ks' => PyStr.eqb k' k || mem k ks'
  end.

Fixpoint items_from (seen : list str) (d : dict) : dict :=
  match d with
  | [] => []
  | (k, v) :: d' =>
      if mem k seen then items_from seen d'
      else (k, v) :: items_from (k :: seen) d'
  end.

(** The entries of a dict in insertion order, one per key. *)
Definition dict_items (d : dict) : dict := items_from [] d.

(** [k in v] for a text [k]. *)
Definition contains_key (k : str) (v : json) : res bool :=
  match v with
  | JDict d => Ok (has_key d k)
  | JList l =>
      Ok (existsb (fun x => match x with JStr s => PyStr.eqb s k | _ => false end) l)
  | JStr s => Ok (PyStr.contains s k)
  | _ => Raise TypeError
  end.

(** [v[k]] for a text [k]. *)
Definition getitem (v : json) (k : str) : res json :=
  match v with
  | JDict d => match lookup d k with Some x => Ok x | None => Raise KeyError end
  | _ => Raise TypeError
  end.

(** [v.get(k, dflt)] *)
Definition get (v : json) (k : str) (dflt : json) : res json :=
  match v with
  | JDict d => Ok (match lookup d k with Some x => x | None => dflt end)
  | _ => Raise AttributeError
  end.

(** [len(v)] *)
Definition len (v : json) : res nat :=
  match v with
  | JStr s => Ok (length s)
  | JList l => Ok (length l)
  | JDict d => Ok (length (dict_items d))
  | _ => Raise TypeError
  end.

(** [v.items()] *)
Definition items (v : json) : res (list (str * json)) :=
  match v with
  | JDict d => Ok (dict_items d)
  | _ => Raise AttributeError
  end.

(** [for x in v]: the values the loop variable takes. *)
Definition iter (v : json) : res (list json) :=
  match v with
  | JList l => Ok l
  | JDict d => Ok (map (fun kv => JStr (fst kv)) (dict_items d))
  | JStr s => Ok (map (fun c => JStr [c]) s)
  | _ => Raise TypeError
  end.

(** Truth value of [v] in an [if]. *)
Definition truthy (v : json) : bool :=
  match v with
  | JNull => false
  | JBool b => b
  | JInt z => negb (Z.eqb z 0)
  | JFloat f => match f with S754_zero _ => false | _ => true end
  | JStr s => match s with [] => false | _ => true end
  | JList l => match l with [] => false | _ => true end
  | JDict d => match d with [] => false | _ => true end
  end.

Definition is_str (v : json) : bool :=
  match v with JStr _ => true | _ => false end.

Definition is_list (v : json) : bool :=
  match v with JList _ => true | _ => false end.

(** [type(v).__name__] *)
Definition type_name (v : json) : str :=
  match v with
  | JNull => lit "NoneType"
  | JBool _ => lit "bool"
  | JInt _ => lit "int"
  | JFloat _ => lit "float"
  | JStr _ => lit "str"
  | JList _ => lit "list"
  | JDict _ => lit "dict"
  end.

(** The exact value of a finite float equals the integer [z]. *)
Definition float_is_int (f : spec_float) (z : Z) : bool :=
  match f with
  | S754_zero _ => Z.eqb z 0
  | S754_finite s m e =>
      let v := if s then Z.neg m else Z.pos m in
      if (0 <=? e)%Z then Z.eqb (Z.shiftl v e) z
      else Z.eqb v (Z.shiftl z (- e))
  | _ => false
  end.

Definition Z_of_bool (b : bool) : Z := if b then 1%Z else 0%Z.

(** Whether a value can be a dict key. *)
Definition hashable (v : json) : bool :=
  match v with
  | JList _ | JDict _ => false
  | _ => true
  end.

(** [a == b] on hashable values: numbers compare by value across [bool],
    [int] and [float]. *)
Definition key_eqb (a b : json) : bool :=
  match a, b with
  | JNull, JNull => true
  | JStr s, JStr t => PyStr.eqb s t
  | JBool x, JBool y => Bool.eqb x y
  | JBool x, JInt z | JInt z, JBool x => Z.eqb (Z_of_bool x) z
  | JInt x, JInt y => Z.eqb x y
  | JFloat f, JInt z | JInt z, JFloat f => float_is_int f z
  | JFloat f, JBool x | JBool x, JFloat f => float_is_int f (Z_of_bool x)
  | JFloat f, JFloat g => SFeqb f g
  | _, _ => false
  end.

(** A dict with arbitrary hashable keys, as [responses] in
    [get_mcp_capabilities]. *)
Definition kdict := list (json * json).

Fixpoint klookup (d : kdict) (k : json) : option json :=
  match d with
  | [] => None
  | (k', v) :: d' => if key_eqb k' k then Some v else klookup d' k
  end.

(** [d[k] = v]: replaces the value of an equal key, else appends. *)
Fixpoint kupdate (d : kdict) (k v : json) : kdict :=
  match d with
  | [] => [(k, v)]
  | (k', v') :: d' =>
      if key_eqb k' k then (k', v) :: d' else (k', v') :: kupdate d' k v
  end.

Definition setitem (d : kdict) (k v : json) : res kdict :=
  if hashable k then Ok (kupdate d k v) else Raise TypeError.

End Py.

(** The two library functions the code calls on JSON values and whose
    results are not computed here: [json.loads], which returns a value or
    raises [json.JSONDecodeError] ([None]), and [repr] on a decoded value.
    The interpreter's resource limits (recursion depth, memory) are not
    part of the model. *)
Class Runtime : Type := {
  json_loads : str -> option json;
  py_repr : json -> str
}.

(** [str(v)], as an f-string formats a value. *)
Definition py_str `{Runtime} (v : json) : str :=
  match v with
  | JStr s => s
  | _ => py_repr v
  end.

(* ================================================================= *)
(** ** The subprocess, seen from the caller *)

(** What one [Popen] followed by [communicate(input, timeout)] does:
    [Popen] raises; [communicate] returns the captured streams after the
    process has ended; [communicate] raises [TimeoutExpired]; [communicate]
    raises another exception. *)
Inductive outcome : Type :=
| SpawnFailed
| Completed (stdout stderr : str)
| TimedOut
| CommFailed.

(** The operations a caller can perform on the process handle. *)
Inductive proc_op : Type :=
| Popen (cmd : list str)
| Communicate (messages : list json) (timeout : Z)
| Kill
| Wait.

Inductive proc_state : Type := NoProcess | Running | Exited.

(** The state of the child after one operation.  [communicate] leaves the
    child running when it times out: only [kill] or the child's own exit
    ends it. *)
Definition proc_step (o : outcome) (st : proc_state) (op : proc_op) : proc_state :=
  match op, st with
  | Popen _, NoProcess => match o with SpawnFailed => NoProcess | _ => Running end
  | Communicate _ _, Running => match o with Completed _ _ => Exited | _ => Running end
  | Kill, Running => Exited
  | Wait, Running => Exited
  | _, _ => st
  end.

Definition proc_after (o : outcome) (ops : list proc_op) : proc_state :=
  fold_left (proc_step o) ops NoProcess.

Definition is_kill (op : proc_op) : bool :=
  match op with Kill => true | _ => false end.

Definition docker_cmd (image : str) : list str :=
  [lit "docker"; lit "run"; lit "--rm"; lit "-i";
   lit "-v"; lit "hgnc-cache:/home/hgnc/.cache/hgnc";
   image; lit "--stdio"].

(** The text ["jsonrpc"], quotes included, that a line must hold. *)
Definition marker : str := dquote :: lit "jsonrpc" ++ [dquote].

(** [line.startswith('{') and '"jsonrpc"' in line] *)
Definition is_response_line (line : str) : bool :=
  startswith line (lit "{") && contains line marker.

Definition index (l : list json) (i : nat) : res json :=
  match nth_error l i with
  | Some x => Ok x
  | None => Raise IndexError
  end.

(** The [initialize] request each session starts with. *)
Definition initialize_msg (client version : string) : json :=
  JDict [(lit "jsonrpc", JStr (lit "2.0"));
         (lit "id", JInt 1);
         (lit "method", JStr (lit "initialize"));
         (lit "params",
          JDict [(lit "protocolVersion", JStr (lit "2024-11-05"));
                 (lit "capabilities", JDict []);
                 (lit "clientInfo",
                  JDict [(lit "name", JStr (lit client));
                         (lit "version", JStr (lit version))])])].

Definition request (id : Z) (method : string) : json :=
  JDict [(lit "jsonrpc", JStr (lit "2.0"));
         (lit "id", JInt id);
         (lit "method", JStr (lit method))].

(* ================================================================= *)
(** ** test_mcp_stdio.py *)

Module Stdio.

Record TestResult : Type := {
  name : str;
  passed : bool;
  message : str;
  duration : spec_float;
  response : option json
}.

Record MCPStdioTester : Type := {
  image : str;
  timeout : Z;
  verbose : bool;
  results : list TestResult
}.

(** [MCPStdioTester(image, timeout, verbose)]: no result yet. *)
Definition new_tester (img : str) (tmo : Z) (vb : bool) : MCPStdioTester :=
  {| image := img; timeout := tmo; verbose := vb; results := [] |}.

(** What the environment gives one scenario: the behaviour of the process
    it starts and the wall-clock time measured around the exchange. *)
Record run_env : Type := {
  out : outcome;
  elapsed : spec_float
}.

Section WithRuntime.
Context `{Runtime}.

(** One turn of the loop over [stdout.split('\n')] in [send_sequence]. *)
Definition scan_step (responses : list json) (raw : str) : list json :=
  let line := strip raw in
  if is_response_line line then
    match json_loads line with
    | Some v => responses ++ [v]
    | None => responses
    end
  else responses.

Definition scan (stdout : str) : list json :=
  fold_left scan_step (split nl stdout) [].

(** The loop in [send_message]: it returns at the first line that decodes. *)
Fixpoint first_response (lines : list str) : option json :=
  match lines with
  | [] => None
  | raw :: rest =>
      let line := strip raw in
      if is_response_line line then
        match json_loads line with
        | Some v => Some v
        | None => first_response rest
        end
      else first_response rest
  end.

Definition send_message (self : MCPStdioTester) (message : json) (o : outcome)
  : option json * list proc_op :=
  let cmd := docker_cmd (image self) in
  let ops := [Popen cmd; Communicate [message] (timeout self)] in
  match o with
  | SpawnFailed => (None, [Popen cmd])
  | Completed stdout _ => (first_response (split nl stdout), ops)
  | TimedOut => (None, ops)
  | CommFailed => (None, ops)
  end.

Definition send_sequence (self : MCPStdioTester) (messages : list json) (o : outcome)
  : list json * list proc_op :=
  let cmd := docker_cmd (image self) in
  let ops := [Popen cmd; Communicate messages (timeout self)] in
  match o with
  | SpawnFailed => ([], [Popen cmd])
  | Completed stdout _ => (scan stdout, ops)
  | TimedOut => ([], ops)
  | CommFailed => ([], ops)
  end.

(** *** Scenarios: the part after the exchange *)

Definition initialize_verdict (dur : spec_float) (response : option json)
  : res TestResult :=
  let failed :=
    {| name := lit "MCP Initialize"; passed := false;
       message := lit "No valid initialize response";
       duration := dur; response := response |} in
  match response with
  | None => Ok failed
  | Some r =>
      if Py.truthy r then
        has_result <- Py.contains_key (lit "result") r ;;
        if has_result then
          result <- Py.getitem r (lit "result") ;;
          has_version <- Py.contains_key (lit "protocolVersion") result ;;
          if has_version then
            v <- Py.getitem result (lit "protocolVersion") ;;
            Ok {| name := lit "MCP Initialize"; passed := true;
                  message := lit "Protocol version: " ++ py_str v;
                  duration := dur; response := response |}
          else Ok failed
        else Ok failed
      else Ok failed
  end.

Definition tools_list_verdict (dur : spec_float) (responses : list json)
  : res TestResult :=
  ok <- (if Nat.leb 2 (length responses)
         then r1 <- index responses 1 ;; Py.contains_key (lit "result") r1
         else Ok false) ;;
  if ok then
    r1 <- index responses 1 ;;
    result <- Py.getitem r1 (lit "result") ;;
    tools <- Py.get result (lit "tools") (JList []) ;;
    n <- Py.len tools ;;
    Ok {| name := lit "List Tools"; passed := true;
          message := lit "Found " ++ of_nat n ++ lit " tools";
          duration := dur; response := Some r1 |}
  else
    Ok {| name := lit "List Tools"; passed := false;
          message := lit "Failed to get tools list";
          duration := dur; response := nth_error responses 1 |}.

Definition resources_list_verdict (dur : spec_float) (responses : list json)
  : res TestResult :=
  ok <- (if Nat.leb 2 (length responses)
         then r1 <- index responses 1 ;; Py.contains_key (lit "result") r1
         else Ok false) ;;
  if ok then
    r1 <- index responses 1 ;;
    result <- Py.getitem r1 (lit "result") ;;
    resources <- Py.get result (lit "resources") (JList []) ;;
    n <- Py.len resources ;;
    Ok {| name := lit "List Resources"; passed := true;
          message := lit "Found " ++ of_nat n ++ lit " resources";
          duration := dur; response := Some r1 |}
  else
    Ok {| name := lit "List Resources"; passed := false;
          message := lit "Failed to get resources list";
          duration := dur; response := nth_error responses 1 |}.

Definition call_tool_verdict (tool_name : str) (dur : spec_float)
  (responses : list json) : res TestResult :=
  let nm := lit "Call Tool: " ++ tool_name in
  let no_response :=
    {| name := nm; passed := false; message := lit "No response from tool";
       duration := dur; response := nth_error responses 1 |} in
  if Nat.leb 2 (length responses) then
    result <- index responses 1 ;;
    has_result <- Py.contains_key (lit "result") result ;;
    if has_result then
      Ok {| name := nm; passed := true;
            message := lit "Tool executed successfully";
            duration := dur; response := Some result |}
    else
      has_error <- Py.contains_key (lit "error") result ;;
      if has_error then
        err <- Py.getitem result (lit "error") ;;
        m <- Py.get err (lit "message") (JStr (lit "Unknown")) ;;
        Ok {| name := nm; passed := false;
              message := lit "Tool error: " ++ py_str m;
              duration := dur; response := Some result |}
      else Ok no_response
  else Ok no_response.

Definition invalid_method_verdict (dur : spec_float) (response : option json)
  : res TestResult :=
  let failed :=
    {| name := lit "Invalid Method Error Handling"; passed := false;
       message := lit "Did not return error for invalid method";
       duration := dur; response := response |} in
  match response with
  | None => Ok failed
  | Some r =>
      if Py.truthy r then
        has_error <- Py.contains_key (lit "error") r ;;
        if has_error then
          err <- Py.getitem r (lit "error") ;;
          m <- Py.get err (lit "message") (JStr (lit "Unknown")) ;;
          Ok {| name := lit "Invalid Method Error Handling"; passed := true;
                message := lit "Correctly returned error: " ++ py_str m;
                duration := dur; response := response |}
        else Ok failed
      else Ok failed
  end.

(** *** Scenarios: request, exchange, verdict *)

Definition test_initialize (self : MCPStdioTester) (env : run_env)
  : res TestResult :=
  let msg := initialize_msg "test-client" "1.0.0" in
  initialize_verdict (elapsed env) (fst (send_message self msg (out env))).

Definition test_tools_list (self : MCPStdioTester) (env : run_env)
  : res TestResult :=
  let msgs := [initialize_msg "test" "1.0"; request 2 "tools/list"] in
  tools_list_verdict (elapsed env) (fst (send_sequence self msgs (out env))).

Definition test_resources_list (self : MCPStdioTester) (env : run_env)
  : res TestResult :=
  let msgs := [initialize_msg "test" "1.0"; request 2 "resources/list"] in
  resources_list_verdict (elapsed env) (fst (send_sequence self msgs (out env))).

Definition test_call_tool (self : MCPStdioTester) (tool_name : str)
  (arguments : json) (env : run_env) : res TestResult :=
  let call :=
    JDict [(lit "jsonrpc", JStr (lit "2.0"));
           (lit "id", JInt 2);
           (lit "method", JStr (lit "tools/call"));
           (lit "params",
            JDict [(lit "name", JStr tool_name);
                   (lit "arguments", arguments)])] in
  let msgs := [initialize_msg "test" "1.0"; call] in
  call_tool_verdict tool_name (elapsed env)
    (fst (send_sequence self msgs (out env))).

Definition test_invalid_method (self : MCPStdioTester) (env : run_env)
  : res TestResult :=
  let msg :=
    JDict [(lit "jsonrpc", JStr (lit "2.0"));
           (lit "id", JInt 99);
           (lit "method", JStr (lit "invalid/method"));
           (lit "params", JDict [])] in
  invalid_method_verdict (elapsed env) (fst (send_message self msg (out env))).

(** *** The run *)

Definition scenario := run_env -> res TestResult.

Definition strs (l : list string) : json := JList (map (fun s => JStr (lit s)) l).

(** The test suite of [run_all_tests], in its order. *)
Definition tests (self : MCPStdioTester) : list scenario :=
  [test_initialize self;
   test_tools_list self;
   test_resources_list self;
   test_call_tool self (lit "GET__tools_info") (JDict []);
   test_call_tool self (lit "POST__tools_find")
     (JDict [(lit "query", JStr (lit "BRCA"))]);
   test_call_tool self (lit "POST__tools_resolve_symbol")
     (JDict [(lit "symbol", JStr (lit "TP53"))]);
   test_call_tool self (lit "POST__tools_normalize_list")
     (JDict [(lit "symbols", strs ["BRCA1"; "TP53"; "EGFR"]%string)]);
   test_call_tool self (lit "POST__tools_validate_panel")
     (JDict [(lit "items", strs ["BRCA1"; "TP53"; "INVALID"]%string)]);
   test_invalid_method self].

(** The loop [for i, test in enumerate(tests, 1)]: the [i]-th scenario
    meets the [i]-th process of the environment; its verdict is appended
    to [self.results]; an exception leaves the loop and the function. *)
Fixpoint run_tests (ts : list scenario) (i : nat) (w : nat -> run_env)
  (acc : list TestResult) : res (list TestResult) :=
  match ts with
  | [] => Ok acc
  | t :: ts' => r <- t (w i) ;; run_tests ts' (S i) w (acc ++ [r])
  end.

Definition run_all_tests (self : MCPStdioTester) (w : nat -> run_env)
  : res (MCPStdioTester * (nat * nat)) :=
  rs <- run_tests (tests self) 0 w (results self) ;;
  let n_passed := length (filter passed rs) in
  let total := length rs in
  Ok ({| image := image self; timeout := timeout self;
         verbose := verbose self; results := rs |}, (n_passed, total)).

(** The exit status of the process: [sys.exit(0 if passed == total else 1)],
    or 1 when an exception reaches the top level. *)
Definition main (img : str) (tmo : Z) (vb : bool) (w : nat -> run_env) : Z :=
  let tester := new_tester img tmo vb in
  match run_all_tests tester w with
  | Ok (_, (n_passed, total)) => if Nat.eqb n_passed total then 0%Z else 1%Z
  | Raise _ => 1%Z
  end.

End WithRuntime.

End Stdio.

(* ================================================================= *)
(** ** The text written to the process

    [send_sequence] and [get_mcp_capabilities] write
    ["\n".join(json.dumps(msg) for msg in messages) + "\n"], and
    [send_message] writes [json.dumps(message) + "\n"]; [dumps] stands for
    [json.dumps]. *)

Module Framing.



End Framing.

(* ================================================================= *)
(** ** validate-mcp-schema.py *)

Module Schema.

(** The prefixes ["❌"] (U+274C) and ["⚠️"] (U+26A0 U+FE0F) by which
    [main] tells blocking findings from advisory ones. *)
Definition cross : str := [10060%N].
Definition warning_sign : str := [9888%N; 65039%N].

Definition is_critical (issue : str) : bool := startswith issue cross.
Definition is_warning (issue : str) : bool := startswith issue warning_sign.

(** [x == s] for a text [s]. *)
Definition is_text (x : json) (s : str) : bool :=
  match x with
  | JStr t => PyStr.eqb t s
  | _ => false
  end.

(** The dict [get_mcp_capabilities] returns. *)
Record Capabilities : Type := {
  tools : json;
  prompts : json;
  resources : json
}.

Definition no_capabilities : Capabilities :=
  {| tools := JList []; prompts := JList []; resources := JList [] |}.

Definition required_fields : list str := [lit "uri"; lit "name"; lit "mimeType"].

Section WithRuntime.
Context `{Runtime}.

(** *** validate_tool_schema *)

Definition empty_default_msg (tool_name : json) (prop_name : str) : str :=
  warning_sign ++ lit "  " ++ py_str tool_name ++ lit "." ++ prop_name
  ++ lit ": 'default' is empty array [] - should be null or omitted".

Definition malformed_default_msg (tool_name : json) (prop_name : str)
  (default : json) : str :=
  cross ++ lit " " ++ py_str tool_name ++ lit "." ++ prop_name
  ++ lit ": 'default' contains malformed array (R c() function?): "
  ++ py_str default.

Definition prop_description_msg (tool_name : json) (prop_name : str) : str :=
  cross ++ lit " " ++ py_str tool_name ++ lit "." ++ prop_name
  ++ lit ": 'description' must be a string".

(** The check of a property's [default]. *)
Definition check_default (tool_name : json) (prop_name : str) (prop_def : json)
  : res (list str) :=
  has_default <- Py.contains_key (lit "default") prop_def ;;
  if has_default then
    default <- Py.getitem prop_def (lit "default") ;;
    match default with
    | JList [] => Ok [empty_default_msg tool_name prop_name]
    | JList (first :: _) =>
        if is_text first (lit "c")
        then Ok [malformed_default_msg tool_name prop_name default]
        else Ok []
    | _ => Ok []
    end
  else Ok [].

(** The check of a property's [description]. *)
Definition check_prop_description (tool_name : json) (prop_name : str)
  (prop_def : json) : res (list str) :=
  has_description <- Py.contains_key (lit "description") prop_def ;;
  if has_description then
    d <- Py.getitem prop_def (lit "description") ;;
    if Py.is_str d then Ok [] else Ok [prop_description_msg tool_name prop_name]
  else Ok [].

(** One turn of the loop over [schema["properties"].items()]. *)
Definition check_property (tool_name : json) (prop : str * json)
  : res (list str) :=
  a <- check_default tool_name (fst prop) (snd prop) ;;
  b <- check_prop_description tool_name (fst prop) (snd prop) ;;
  Ok (a ++ b).

Definition validate_tool_schema (tool : json) : res (list str) :=
  tool_name <- Py.get tool (lit "name") (JStr (lit "unknown")) ;;
  has_description <- Py.contains_key (lit "description") tool ;;
  i1 <- (if has_description then
           d <- Py.getitem tool (lit "description") ;;
           if Py.is_str d then Ok []
           else Ok [cross ++ lit " " ++ py_str tool_name
                    ++ lit ": 'description' must be a string, got "
                    ++ Py.type_name d]
         else Ok []) ;;
  has_schema <- Py.contains_key (lit "inputSchema") tool ;;
  i2 <- (if has_schema then
           schema <- Py.getitem tool (lit "inputSchema") ;;
           has_properties <- Py.contains_key (lit "properties") schema ;;
           if has_properties then
             properties <- Py.getitem schema (lit "properties") ;;
             props <- Py.items properties ;;
             per_prop <- mapM (check_property tool_name) props ;;
             Ok (concat per_prop)
           else Ok []
         else Ok []) ;;
  Ok (i1 ++ i2).

(** *** validate_prompt_schema *)

Definition validate_prompt_schema (prompt : json) : res (list str) :=
  prompt_name <- Py.get prompt (lit "name") (JStr (lit "unknown")) ;;
  has_description <- Py.contains_key (lit "description") prompt ;;
  i1 <- (if has_description then
           d <- Py.getitem prompt (lit "description") ;;
           if Py.is_str d then Ok []
           else Ok [cross ++ lit " Prompt " ++ py_str prompt_name
                    ++ lit ": 'description' must be a string"]
         else Ok []) ;;
  has_arguments <- Py.contains_key (lit "arguments") prompt ;;
  i2 <- (if has_arguments then
           a <- Py.getitem prompt (lit "arguments") ;;
           if Py.is_list a then Ok []
           else Ok [cross ++ lit " Prompt " ++ py_str prompt_name
                    ++ lit ": 'arguments' must be an array"]
         else Ok []) ;;
  Ok (i1 ++ i2).

(** *** validate_resource_schema *)

Definition missing_field_msg (resource_uri : json) (field : str) : str :=
  cross ++ lit " Resource " ++ py_str resource_uri
  ++ lit ": missing required field '" ++ field ++ lit "'".

Definition field_type_msg (resource_uri : json) (field : str) : str :=
  cross ++ lit " Resource " ++ py_str resource_uri
  ++ lit ": '" ++ field ++ lit "' must be a string".

(** One turn of the loop over [required_fields]. *)
Definition check_field (resource resource_uri : json) (field : str)
  : res (list str) :=
  present <- Py.contains_key field resource ;;
  if negb present then Ok [missing_field_msg resource_uri field]
  else
    v <- Py.getitem resource field ;;
    if negb (Py.is_str v) then Ok [field_type_msg resource_uri field]
    else Ok [].

Definition validate_resource_schema (resource : json) : res (list str) :=
  resource_uri <- Py.get resource (lit "uri") (JStr (lit "unknown")) ;;
  per_field <- mapM (check_field resource resource_uri) required_fields ;;
  Ok (concat per_field).

(** *** get_mcp_capabilities *)

(** One turn of the loop over [stdout.split('\n')]: [responses] maps the
    [id] of a decoded line that has both [id] and [result] to its
    [result].  Only [JSONDecodeError] is handled inside the loop. *)
Definition collect_step (acc : res Py.kdict) (raw : str) : res Py.kdict :=
  responses <- acc ;;
  let line := strip raw in
  if is_response_line line then
    match json_loads line with
    | None => Ok responses
    | Some response =>
        has_id <- Py.contains_key (lit "id") response ;;
        keep <- (if has_id then Py.contains_key (lit "result") response
                 else Ok false) ;;
        if keep then
          v <- Py.getitem response (lit "result") ;;
          k <- Py.getitem response (lit "id") ;;
          Py.setitem responses k v
        else Ok responses
    end
  else Ok responses.

Definition collect (stdout : str) : res Py.kdict :=
  fold_left collect_step (split nl stdout) (Ok []).

(** [responses.get(id, {}).get(field, [])] *)
Definition capability (responses : Py.kdict) (id : Z) (field : str) : res json :=
  Py.get (match Py.klookup responses (JInt id) with
          | Some r => r
          | None => JDict []
          end) field (JList []).

(** Every exception, a timeout included, ends in the [except Exception]
    handler, which returns three empty lists. *)
Definition get_mcp_capabilities (image : str) (o : outcome) : Capabilities :=
  match o with
  | Completed stdout _ =>
      match (responses <- collect stdout ;;
             t <- capability responses 2 (lit "tools") ;;
             p <- capability responses 3 (lit "prompts") ;;
             r <- capability responses 4 (lit "resources") ;;
             Ok {| tools := t; prompts := p; resources := r |}) with
      | Ok caps => caps
      | Raise _ => no_capabilities
      end
  | _ => no_capabilities
  end.

(** *** main *)

(** One of the three validation loops of [main], with the [len] its
    heading prints. *)
Definition validate_all (validate : json -> res (list str)) (entries : json)
  : res (list str) :=
  _ <- Py.len entries ;;
  es <- Py.iter entries ;;
  per_entry <- mapM validate es ;;
  Ok (concat per_entry).

(** [all_issues] when the three loops have run. *)
Definition all_findings (caps : Capabilities) : res (list str) :=
  t <- validate_all validate_tool_schema (tools caps) ;;
  p <- validate_all validate_prompt_schema (prompts caps) ;;
  r <- validate_all validate_resource_schema (resources caps) ;;
  Ok (t ++ p ++ r).

(** The summary: [sys.exit(1)] when there is a critical issue, else
    [sys.exit(0)]. *)
Definition summary_status (all_issues : list str) : Z :=
  let critical_issues := filter is_critical all_issues in
  let warnings := filter is_warning all_issues in
  match critical_issues with
  | _ :: _ => 1%Z
  | [] => match warnings with
          | _ :: _ => 0%Z
          | [] => 0%Z
          end
  end.

(** The exit status of the validator; an exception that reaches the top
    level ends the process with status 1. *)
Definition main (image : str) (o : outcome) : Z :=
  match all_findings (get_mcp_capabilities image o) with
  | Ok all_issues => summary_status all_issues
  | Raise _ => 1%Z
  end.

End WithRuntime.

End Schema.

(* ================================================================= *)
(** ** A reference runtime for running the model on concrete text

    The statements below hold for every [Runtime].  To evaluate the model
    on a concrete output stream, [Ref] gives a decoder for the JSON
    documents the examples use: objects, arrays, texts without backslash,
    integers and the three literals, with the white space and the
    trailing-data rule of [json.loads].  It rejects everything else, so it
    agrees with [json.loads] on that fragment only. *)

Module Ref.

Definition is_ws (c : char) : bool :=
  ((c =? 32) || (c =? 9) || (c =? 10) || (c =? 13))%N.

Fixpoint skip_ws (s : str) : str :=
  match s with
  | c :: s' => if is_ws c then skip_ws s' else s
  | [] => []
  end.

(** The text after an opening quote, up to the closing one. *)
Fixpoint text_body (s acc : str) : option (str * str) :=
  match s with
  | [] => None
  | c :: s' =>
      if (c =? 34)%N then Some (rev acc, s')
      else if (c =? 92)%N || (c <? 32)%N then None
      else text_body s' (c :: acc)
  end.

Definition is_digit (c : char) : bool := ((48 <=? c) && (c <=? 57))%N.

Fixpoint digits_value (s : str) (acc : Z) : Z * str :=
  match s with
  | c :: s' =>
      if is_digit c then digits_value s' (10 * acc + Z.of_N (c - 48))%Z
      else (acc, s)
  | [] => (acc, [])
  end.

Definition is_fraction_start (s : str) : bool :=
  match s with
  | c :: _ => ((c =? 46) || (c =? 101) || (c =? 69))%N
  | [] => false
  end.

(** An optional minus sign, then [0] or a digit string that does not
    start with [0]; refused when a fraction or an exponent follows. *)
Definition integer (s : str) : option (Z * str) :=
  let '(neg, s1) :=
    match s with
    | c :: s' => if (c =? 45)%N then (true, s') else (false, s)
    | [] => (false, s)
    end in
  match s1 with
  | c :: s2 =>
      if is_digit c then
        let '(n, rest) :=
          if (c =? 48)%N then (0%Z, s2) else digits_value s1 0%Z in
        if is_fraction_start rest then None
        else Some (if neg then (- n)%Z else n, rest)
      else None
  | [] => None
  end.

(** [d[k] = v] on a dict with text keys. *)
Fixpoint dict_set (d : dict) (k : str) (v : json) : dict :=
  match d with
  | [] => [(k, v)]
  | (k', v') :: d' =>
      if PyStr.eqb k' k then (k', v) :: d' else (k', v') :: dict_set d' k v
  end.

Definition literal (word : string) (v : json) (s : str) : option (json * str) :=
  if startswith s (lit word) then Some (v, skipn (length (lit word)) s) else None.

(** A value at the head of [s]; [members] and [elements] stand after the
    opening bracket and the white space that follows it. *)
Fixpoint value (fuel : nat) (s : str) : option (json * str) :=
  match fuel with
  | O => None
  | S fuel' =>
      match s with
      | [] => None
      | c :: s' =>
          if (c =? 123)%N then
            match skip_ws s' with
            | c1 :: s1 =>
                if (c1 =? 125)%N then Some (JDict [], s1)
                else members fuel' (c1 :: s1) []
            | [] => None
            end
          else if (c =? 91)%N then
            match skip_ws s' with
            | c1 :: s1 =>
                if (c1 =? 93)%N then Some (JList [], s1)
                else elements fuel' (c1 :: s1) []
            | [] => None
            end
          else if (c =? 34)%N then
            match text_body s' [] with
            | Some (t, rest) => Some (JStr t, rest)
            | None => None
            end
          else if (c =? 116)%N then literal "true" (JBool true) s
          else if (c =? 102)%N then literal "false" (JBool false) s
          else if (c =? 110)%N then literal "null" JNull s
          else
            match integer s with
            | Some (n, rest) => Some (JInt n, rest)
            | None => None
            end
      end
  end

with members (fuel : nat) (s : str) (acc : dict) : option (json * str) :=
  match fuel with
  | O => None
  | S fuel' =>
      match s with
      | c :: s1 =>
          if (c =? 34)%N then
            match text_body s1 [] with
            | Some (k, s2) =>
                match skip_ws s2 with
                | c3 :: s3 =>
                    if (c3 =? 58)%N then
                      match value fuel' (skip_ws s3) with
                      | Some (v, s4) =>
                          let acc' := dict_set acc k v in
                          match skip_ws s4 with
                          | c5 :: s5 =>
                              if (c5 =? 44)%N then members fuel' (skip_ws s5) acc'
                              else if (c5 =? 125)%N then Some (JDict acc', s5)
                              else None
                          | [] => None
                          end
                      | None => None
                      end
                    else None
                | [] => None
                end
            | None => None
            end
          else None
      | [] => None
      end
  end

with elements (fuel : nat) (s : str) (acc : list json) : option (json * str) :=
  match fuel with
  | O => None
  | S fuel' =>
      match value fuel' s with
      | Some (v, s1) =>
          match skip_ws s1 with
          | c2 :: s2 =>
              if (c2 =? 44)%N then elements fuel' (skip_ws s2) (acc ++ [v])
              else if (c2 =? 93)%N then Some (JList (acc ++ [v]), s2)
              else None
          | [] => None
          end
      | None => None
      end
  end.

Definition loads (s : str) : option json :=
  match value (2 * S (length s)) (skip_ws s) with
  | Some (v, rest) =>
      match skip_ws rest with
      | [] => Some v
      | _ :: _ => None
      end
  | None => None
  end.

Definition of_Z (z : Z) : str :=
  if (z <? 0)%Z then lit "-" ++ of_nat (Z.abs_nat z) else of_nat (Z.abs_nat z).

(** [repr] of the values [loads] yields, for texts of printable characters
    without quote or backslash; a float has no rendering here. *)
Fixpoint repr (v : json) : str :=
  match v with
  | JNull => lit "None"
  | JBool true => lit "True"
  | JBool false => lit "False"
  | JInt z => of_Z z
  | JFloat _ => []
  | JStr s => lit "'" ++ s ++ lit "'"
  | JList l =>
      lit "["
      ++ (fix go (l : list json) : str :=
            match l with
            | [] => []
            | [x] => repr x
            | x :: l' => repr x ++ lit ", " ++ go l'
            end) l
      ++ lit "]"
  | JDict d =>
      lit "{"
      ++ (fix go (d : list (str * json)) : str :=
            match d with
            | [] => []
            | [(k, x)] => lit "'" ++ k ++ lit "': " ++ repr x
            | (k, x) :: d' => lit "'" ++ k ++ lit "': " ++ repr x ++ lit ", " ++ go d'
            end) d
      ++ lit "}"
  end.


#[export] Instance runtime : Runtime := {| json_loads := loads; py_repr := repr |}.

End Ref.

(* ================================================================= *)
(** ** The properties, as the specification words them *)

Module Spec.

(** The output lines, each stripped, that begin with an opening brace and
    hold the protocol tag. *)
Definition candidate_lines (stdout : str) : list str :=
  filter is_response_line (map strip (split nl stdout)).

(** A response where [o] is one, nothing where it is not. *)
Definition opt_list {A} (o : option A) : list A :=
  match o with
  | Some a => [a]
  | None => []
  end.

Definition is_some {A} (o : option A) : bool :=
  match o with
  | Some _ => true
  | None => false
  end.

Definition is_dict (v : json) : bool :=
  match v with JDict _ => true | _ => false end.

(** Values [len] accepts. *)
Definition sized (v : json) : bool :=
  match v with
  | JStr _ | JList _ | JDict _ => true
  | _ => false
  end.

(** The member [k] of [d], when there is one, satisfies [ok]. *)
Definition member_ok (d : dict) (k : str) (ok : json -> bool) : bool :=
  match Py.lookup d k with
  | Some v => ok v
  | None => true
  end.

Definition result_ok (v : json) : bool :=
  match v with
  | JDict r => member_ok r (lit "tools") sized && member_ok r (lit "resources") sized
  | _ => false
  end.

(** A response object whose [result] and [error], where present, are
    objects, the [tools] and [resources] of the result being collections
    or text. *)
Definition response_ok (r : json) : bool :=
  match r with
  | JDict d => member_ok d (lit "result") result_ok && member_ok d (lit "error") is_dict
  | _ => false
  end.

Definition opt_response_ok (r : option json) : bool :=
  match r with
  | Some v => response_ok v
  | None => true
  end.

(** A verdict was returned and it is a pass. *)
Definition passes (x : res Stdio.TestResult) : bool :=
  match x with
  | Ok v => Stdio.passed v
  | Raise _ => false
  end.

Definition returns {A} (x : res A) : bool :=
  match x with
  | Ok _ => true
  | Raise _ => false
  end.


(** An [id] as the wire format has it: an integer or a text. *)
Definition plain_id (k : json) : bool :=
  match k with
  | JInt _ | JStr _ => true
  | _ => false
  end.

(** A recovered response the capability retrieval can file: an object
    whose [id], when it comes with a [result], is an integer or a text. *)
Definition filable (r : json) : bool :=
  match r with
  | JDict d =>
      match Py.lookup d (lit "id"), Py.lookup d (lit "result") with
      | Some k, Some _ => plain_id k
      | _, _ => true
      end
  | _ => false
  end.






(** Filing one recovered response under its [id]. *)
Definition record (d : Py.kdict) (r : json) : Py.kdict :=
  match r with
  | JDict o =>
      match Py.lookup o (lit "id"), Py.lookup o (lit "result") with
      | Some k, Some v => Py.kupdate d k v
      | _, _ => d
      end
  | _ => d
  end.







(** The [uri] a resource's findings name. *)
Definition resource_uri (resource : dict) : json :=
  match Py.lookup resource (lit "uri") with
  | Some u => u
  | None => JStr (lit "unknown")
  end.

Definition tool_name (tool : dict) : json :=
  match Py.lookup tool (lit "name") with
  | Some n => n
  | None => JStr (lit "unknown")
  end.

Definition absent_or_text (o : option json) : bool :=
  match o with
  | Some v => Py.is_str v
  | None => true
  end.

Definition present_text (o : option json) : bool :=
  match o with
  | Some v => Py.is_str v
  | None => false
  end.

(** The exchange ran to the end of the process. *)
Definition completed (o : outcome) : bool :=
  match o with
  | Completed _ _ => true
  | _ => false
  end.

(** The number of responses a scenario of the suite needs, by its place. *)
Definition needed (i : nat) : nat :=
  match i with
  | 0 | 8 => 1
  | _ => 2
  end.

(** [len] of a member that may be absent, an absent one counting as the
    empty list. *)
Definition member_len (o : option json) : option nat :=
  match o with
  | None => Some 0
  | Some (JStr s) => Some (length s)
  | Some (JList l) => Some (length l)
  | Some (JDict d) => Some (length (Py.dict_items d))
  | Some _ => None
  end.

Definition prompt_name (prompt : dict) : json :=
  match Py.lookup prompt (lit "name") with
  | Some n => n
  | None => JStr (lit "unknown")
  end.

Definition absent_or_list (o : option json) : bool :=
  match o with
  | Some v => Py.is_list v
  | None => true
  end.

(** A [default] the tool rule flags: an empty list, or a list whose first
    element is the text ["c"]. *)
Definition flagged_default (o : option json) : bool :=
  match o with
  | Some (JList []) => true
  | Some (JList (first :: _)) => Schema.is_text first (lit "c")
  | _ => false
  end.


(** A finding that [main] counts once: blocking or advisory, not both. *)
Definition classified (issue : str) : bool :=
  xorb (Schema.is_critical issue) (Schema.is_warning issue).

Section WithRuntime.
Context `{Runtime}.

(** What the summary of a finished run counts. *)
Definition recovered_of (o : outcome) : list json :=
  match o with
  | Completed stdout _ =>
      flat_map (fun l => opt_list (json_loads l)) (candidate_lines stdout)
  | _ => []
  end.

(** The finding of a tool's own description. *)
Definition description_findings (tool : dict) : list str :=
  match Py.lookup tool (lit "description") with
  | None => []
  | Some (JStr _) => []
  | Some d =>
      [Schema.cross ++ lit " " ++ py_str (tool_name tool)
       ++ lit ": 'description' must be a string, got " ++ Py.type_name d]
  end.

(** A required field that is missing or is not a text gives one finding;
    a text gives none. *)
Definition field_findings (resource : dict) (field : str) : list str :=
  match Py.lookup resource field with
  | None => [Schema.missing_field_msg (resource_uri resource) field]
  | Some (JStr _) => []
  | Some _ => [Schema.field_type_msg (resource_uri resource) field]
  end.


(** The JSON parses of the candidate lines that decode, in output order. *)
Definition recovered (stdout : str) : list json :=
  flat_map (fun l => opt_list (json_loads l)) (candidate_lines stdout).

(** What each scenario of the suite does in the environment [w]. *)
Definition suite_results (self : Stdio.MCPStdioTester) (w : nat -> Stdio.run_env)
  : list (res Stdio.TestResult) :=
  map (fun it => snd it (w (fst it)))
      (combine (seq 0 (length (Stdio.tests self))) (Stdio.tests self)).

End WithRuntime.

End Spec.

(* ================================================================= *)
(** ** Concrete sessions *)

Module Sample.

Definition unlines (ls : list str) : str :=
  flat_map (fun l => l ++ [nl]) ls.

Definition tester : Stdio.MCPStdioTester :=
  {| Stdio.image := lit "hgnc-mcp:latest"; Stdio.timeout := 30%Z;
     Stdio.verbose := false; Stdio.results := [] |}.

Definition no_time : spec_float := S754_zero false.

Definition finished (ls : list str) : Stdio.run_env :=
  {| Stdio.out := Completed (unlines ls) []; Stdio.elapsed := no_time |}.

Definition log_line : str := lit "Loading HGNC cache...".

Definition init_line : str :=
  jlit "{'jsonrpc':'2.0','id':1,'result':{'protocolVersion':'2024-11-05'}}".

Definition init_response : json :=
  JDict [(lit "jsonrpc", JStr (lit "2.0")); (lit "id", JInt 1);
         (lit "result", JDict [(lit "protocolVersion", JStr (lit "2024-11-05"))])].

Definition bad_args_line : str :=
  jlit "{'jsonrpc':'2.0','id':2,'error':{'message':'bad args'}}".

Definition empty_result_line : str :=
  jlit "{'jsonrpc':'2.0','id':2,'result':{}}".

Definition list_result_line : str :=
  jlit "{'jsonrpc':'2.0','id':2,'result':[]}".

Definition resources_line : str :=
  jlit "{'jsonrpc':'2.0','id':2,'result':{'resources':[]}}".

Definition method_error_line : str :=
  jlit "{'jsonrpc':'2.0','id':99,'error':{'code':-32601,'message':'Method not found'}}".


(** A server that answers every scenario well. *)
Definition good_world (i : nat) : Stdio.run_env :=
  match i with
  | 0 => finished [log_line; init_line]
  | 1 => finished [init_line; jlit "{'jsonrpc':'2.0','id':2,'result':{'tools':[]}}"]
  | 2 => finished [init_line; resources_line]
  | 8 => finished [method_error_line]
  | _ => finished [init_line; empty_result_line]
  end.


Definition bad_args_response : json :=
  JDict [(lit "jsonrpc", JStr (lit "2.0")); (lit "id", JInt 2);
         (lit "error", JDict [(lit "message", JStr (lit "bad args"))])].

Definition list_result_response : json :=
  JDict [(lit "jsonrpc", JStr (lit "2.0")); (lit "id", JInt 2);
         (lit "result", JList [])].

Definition tools_list_msgs : list json :=
  [initialize_msg "test" "1.0"; request 2 "tools/list"].

(** A resource without [mimeType]. *)
Definition genes_resource : dict :=
  [(lit "uri", JStr (lit "hgnc://genes")); (lit "name", JStr (lit "Genes"))].

Definition c_default_def : dict :=
  [(lit "default", JList [JStr (lit "c"); JStr (lit "symbol")])].




(** Capability answers: one tool whose property has an empty default. *)
Definition empty_default_out : outcome :=
  Completed
    (unlines
       [init_line;
        jlit "{'jsonrpc':'2.0','id':2,'result':{'tools':[{'name':'find','inputSchema':{'properties':{'fields':{'default':[]}}}}]}}";
        jlit "{'jsonrpc':'2.0','id':3,'result':{'prompts':[]}}";
        jlit "{'jsonrpc':'2.0','id':4,'result':{'resources':[]}}"]) [].

Definition find_tool : json :=
  JDict [(lit "name", JStr (lit "find"))].




Definition tools_result_response : json :=
  JDict [(lit "jsonrpc", JStr (lit "2.0")); (lit "id", JInt 2);
         (lit "result",
          JDict [(lit "tools", JList [find_tool; find_tool])])].

Definition both_members : dict :=
  [(lit "jsonrpc", JStr (lit "2.0")); (lit "id", JInt 2);
   (lit "result", JNull);
   (lit "error", JDict [(lit "message", JStr (lit "bad args"))])].

Definition numbered_tool : dict :=
  [(lit "name", JStr (lit "find")); (lit "description", JInt 7)].

Definition bad_prompt : dict :=
  [(lit "name", JStr (lit "panel")); (lit "description", JNull);
   (lit "arguments", JDict [])].

End Sample.

(* ================================================================= *)
(** ** Text and monad lemmas *)

Lemma eqb_refl (a : str) : PyStr.eqb a a = true.
Proof.
  induction a as [|x a IH]; simpl; [reflexivity|].
  now rewrite N.eqb_refl, IH.
Qed.


Lemma startswith_app (p s : str) : startswith (p ++ s) p = true.
Proof.
  induction p as [|x p IH]; simpl; [now destruct s|].
  now rewrite N.eqb_refl, IH.
Qed.

Lemma contains_here (s sub : str) : startswith s sub = true -> contains s sub = true.
Proof. intros E. destruct s; cbn [contains]; rewrite E; reflexivity. Qed.

Lemma contains_skip (a s sub : str) :
  contains s sub = true -> contains (a ++ s) sub = true.
Proof.
  intros E. induction a as [|x a IH]; [exact E|].
  cbn [app contains]. rewrite IH. apply orb_true_r.
Qed.

Lemma contains_infix (a m b : str) : contains (a ++ m ++ b) m = true.
Proof. apply contains_skip, contains_here, startswith_app. Qed.

Lemma bind_ok {A B} (m : res A) (k : A -> res B) (b : B) :
  bind m k = Ok b -> exists a, m = Ok a /\ k a = Ok b.
Proof. destruct m as [a|e]; simpl; [eauto | discriminate]. Qed.

Lemma mapM_total {A B} (f : A -> res B) (g : A -> B) (l : list A) :
  (forall a, In a l -> f a = Ok (g a)) -> mapM f l = Ok (map g l).
Proof.
  induction l as [|a l IH]; intros Hf; simpl; [reflexivity|].
  rewrite (Hf a (or_introl eq_refl)); simpl.
  rewrite IH by (intros; apply Hf; now right). reflexivity.
Qed.



(** *** Dicts *)



(* ================================================================= *)
(** ** The session transport *)

Section Transport.
Context `{Runtime}.

(** The accumulating loop of [send_sequence], from any point of the
    output on. *)
Lemma scan_from (lines : list str) (acc : list json) :
  fold_left Stdio.scan_step lines acc
  = acc ++ flat_map (fun l => Spec.opt_list (json_loads l))
             (filter is_response_line (map strip lines)).
Proof.
  revert acc; induction lines as [|raw lines IH]; intros acc; simpl.
  - now rewrite app_nil_r.
  - rewrite IH. unfold Stdio.scan_step.
    destruct (is_response_line (strip raw)); simpl; [|reflexivity].
    destruct (json_loads (strip raw)); simpl; [|reflexivity].
    now rewrite <- app_assoc.
Qed.

Lemma scan_recovered (stdout : str) : Stdio.scan stdout = Spec.recovered stdout.
Proof. unfold Stdio.scan. now rewrite scan_from. Qed.


(** The early-return loop of [send_message] finds the first of them. *)
Lemma first_response_head (lines : list str) :
  Stdio.first_response lines
  = hd_error (flat_map (fun l => Spec.opt_list (json_loads l))
                (filter is_response_line (map strip lines))).
Proof.
  induction lines as [|raw lines IH]; simpl; [reflexivity|].
  destruct (is_response_line (strip raw)); simpl; [|exact IH].
  destruct (json_loads (strip raw)); simpl; [reflexivity|exact IH].
Qed.


Lemma split_length (sep : char) (s : str) : length (split sep s) <= S (length s).
Proof.
  induction s as [|c s IH]; simpl; [lia|].
  destruct (N.eqb c sep); simpl; [lia|].
  destruct (split sep s); simpl in *; lia.
Qed.






(** The transport never kills the process it started. *)
Lemma transport_never_kills
  (self : Stdio.MCPStdioTester) (messages : list json) (message : json) (o : outcome) :
  existsb is_kill (snd (Stdio.send_sequence self messages o)) = false
  /\ existsb is_kill (snd (Stdio.send_message self message o)) = false.
Proof. destruct o; split; reflexivity. Qed.

(** C2, as amended.  When the timeout elapses the transport returns no
    response ([send_sequence] the empty list, [send_message] none) and
    returns normally; it performs no kill on the process, which is still
    running when control is back with the caller. *)
Theorem timeout_returns_no_response
  (self : Stdio.MCPStdioTester) (messages : list json) (message : json) :
  fst (Stdio.send_sequence self messages TimedOut) = []
  /\ fst (Stdio.send_message self message TimedOut) = None
  /\ existsb is_kill (snd (Stdio.send_sequence self messages TimedOut)) = false
  /\ existsb is_kill (snd (Stdio.send_message self message TimedOut)) = false
  /\ proc_after TimedOut (snd (Stdio.send_sequence self messages TimedOut)) = Running
  /\ proc_after TimedOut (snd (Stdio.send_message self message TimedOut)) = Running.
Proof.
  destruct (transport_never_kills self messages message TimedOut) as [K1 K2].
  repeat split; try assumption.
Qed.

End Transport.

(* ================================================================= *)
(** ** The scenarios *)

Section Scenarios.
Context `{Runtime}.

Lemma has_key_lookup (d : dict) (k : str) :
  Py.has_key d k = Spec.is_some (Py.lookup d k).
Proof. unfold Py.has_key. now destruct (Py.lookup d k). Qed.

Lemma second_of (r0 r1 : json) (rest : list json) :
  index (r0 :: r1 :: rest) 1 = Ok r1.
Proof. reflexivity. Qed.

(** The tool-call verdict on a second response that carries an error
    object with a message and no result. *)
Lemma call_tool_verdict_error
  (tool_name : str) (dur : spec_float) (r0 : json) (r1 err : dict) (m : json)
  (rest : list json) :
  Py.lookup r1 (lit "result") = None ->
  Py.lookup r1 (lit "error") = Some (JDict err) ->
  Py.lookup err (lit "message") = Some m ->
  Stdio.call_tool_verdict tool_name dur (r0 :: JDict r1 :: rest)
  = Ok {| Stdio.name := lit "Call Tool: " ++ tool_name;
          Stdio.passed := false;
          Stdio.message := lit "Tool error: " ++ py_str m;
          Stdio.duration := dur;
          Stdio.response := Some (JDict r1) |}.
Proof.
  intros Hres Herr Hmsg. unfold Stdio.call_tool_verdict.
  cbn [length Nat.leb]. rewrite second_of. cbn [bind Py.contains_key].
  rewrite has_key_lookup, Hres. cbn [Spec.is_some bind Py.contains_key].
  rewrite has_key_lookup, Herr. cbn [Spec.is_some bind Py.getitem].
  rewrite Herr. cbn [bind Py.get]. rewrite Hmsg. reflexivity.
Qed.

(** C4.  In a call-tool scenario whose second recovered response has no
    [result] and an [error] object with a [message] text, the verdict is a
    failure and its diagnostic, ["Tool error: "] followed by that text,
    includes the text. *)
Theorem call_tool_error_is_reported
  (self : Stdio.MCPStdioTester) (tool_name : str) (arguments : json)
  (env : Stdio.run_env) (stdout stderr : str)
  (r0 : json) (r1 err : dict) (m : str) (rest : list json) :
  Stdio.out env = Completed stdout stderr ->
  Spec.recovered stdout = r0 :: JDict r1 :: rest ->
  Py.lookup r1 (lit "result") = None ->
  Py.lookup r1 (lit "error") = Some (JDict err) ->
  Py.lookup err (lit "message") = Some (JStr m) ->
  exists v,
    Stdio.test_call_tool self tool_name arguments env = Ok v
    /\ Stdio.passed v = false
    /\ Stdio.message v = lit "Tool error: " ++ m
    /\ contains (Stdio.message v) m = true.
Proof.
  intros Hout Hrec Hres Herr Hmsg.
  unfold Stdio.test_call_tool. rewrite Hout. cbn [Stdio.send_sequence fst].
  rewrite scan_recovered, Hrec.
  erewrite call_tool_verdict_error by eassumption.
  eexists. split; [reflexivity|]. cbn [Stdio.passed Stdio.message py_str].
  repeat split.
  rewrite <- (app_nil_r m) at 1. apply contains_infix.
Qed.

(** *** When a verdict is returned *)

Lemma member_ok_found (d : dict) (k : str) (ok : json -> bool) (v : json) :
  Spec.member_ok d k ok = true -> Py.lookup d k = Some v -> ok v = true.
Proof. unfold Spec.member_ok. intros E L. now rewrite L in E. Qed.

Lemma len_sized (v : json) : Spec.sized v = true -> exists n, Py.len v = Ok n.
Proof. destruct v; simpl; try discriminate; eauto. Qed.

Lemma initialize_verdict_returns (dur : spec_float) (response : option json) :
  Spec.opt_response_ok response = true ->
  Spec.returns (Stdio.initialize_verdict dur response) = true.
Proof.
  destruct response as [r|]; [|reflexivity]. simpl.
  destruct r as [| | | | | |d]; try discriminate. intros Hok.
  apply andb_true_iff in Hok as [Hres _].
  unfold Stdio.initialize_verdict.
  destruct (Py.truthy (JDict d)); [|reflexivity].
  cbn [Py.contains_key bind]. rewrite has_key_lookup.
  destruct (Py.lookup d (lit "result")) as [res|] eqn:E; [|reflexivity].
  cbn [Spec.is_some Py.getitem]. rewrite E. cbn [bind].
  pose proof (member_ok_found _ _ _ Hres E) as Hr.
  destruct res as [| | | | | |rd]; try discriminate.
  cbn [Py.contains_key bind]. rewrite has_key_lookup.
  destruct (Py.lookup rd (lit "protocolVersion")) as [v|] eqn:Ev; [|reflexivity].
  cbn [Spec.is_some Py.getitem]. rewrite Ev. reflexivity.
Qed.

Lemma invalid_method_verdict_returns (dur : spec_float) (response : option json) :
  Spec.opt_response_ok response = true ->
  Spec.returns (Stdio.invalid_method_verdict dur response) = true.
Proof.
  destruct response as [r|]; [|reflexivity]. simpl.
  destruct r as [| | | | | |d]; try discriminate. intros Hok.
  apply andb_true_iff in Hok as [_ Herr].
  unfold Stdio.invalid_method_verdict.
  destruct (Py.truthy (JDict d)); [|reflexivity].
  cbn [Py.contains_key bind]. rewrite has_key_lookup.
  destruct (Py.lookup d (lit "error")) as [e|] eqn:E; [|reflexivity].
  cbn [Spec.is_some Py.getitem]. rewrite E. cbn [bind].
  pose proof (member_ok_found _ _ _ Herr E) as He.
  destruct e; try discriminate. reflexivity.
Qed.

(** A sequence too short for a second response. *)
Lemma short_sequence (responses : list json) :
  length responses < 2 ->
  Nat.leb 2 (length responses) = false /\ nth_error responses 1 = None.
Proof.
  intros Hlen. split.
  - apply Nat.leb_gt. exact Hlen.
  - apply nth_error_None. lia.
Qed.

Lemma second_exists (responses : list json) :
  Nat.leb 2 (length responses) = true ->
  exists r0 r1 rest, responses = r0 :: r1 :: rest.
Proof.
  destruct responses as [|r0 [|r1 rest]]; simpl; try discriminate. eauto.
Qed.

Lemma tools_list_verdict_returns (dur : spec_float) (responses : list json) :
  Spec.opt_response_ok (nth_error responses 1) = true ->
  Spec.returns (Stdio.tools_list_verdict dur responses) = true.
Proof.
  intros Hall. unfold Stdio.tools_list_verdict.
  destruct (Nat.leb 2 (length responses)) eqn:Hlen; [|reflexivity].
  destruct (second_exists _ Hlen) as (r0 & r1 & rest & ->).
  rewrite second_of. cbn [bind].
  simpl in Hall. rename Hall into Hok.
  destruct r1 as [| | | | | |d]; try discriminate.
  apply andb_true_iff in Hok as [Hres _].
  cbn [Py.contains_key bind]. rewrite has_key_lookup.
  destruct (Py.lookup d (lit "result")) as [res|] eqn:E; [|reflexivity].
  cbn [Spec.is_some Py.getitem]. rewrite E. cbn [bind].
  pose proof (member_ok_found _ _ _ Hres E) as Hr.
  destruct res as [| | | | | |rd]; try discriminate.
  apply andb_true_iff in Hr as [Ht _].
  cbn [Py.get bind].
  destruct (Py.lookup rd (lit "tools")) as [t|] eqn:Et.
  - destruct (len_sized t (member_ok_found _ _ _ Ht Et)) as [n ->]. reflexivity.
  - reflexivity.
Qed.

Lemma resources_list_verdict_returns (dur : spec_float) (responses : list json) :
  Spec.opt_response_ok (nth_error responses 1) = true ->
  Spec.returns (Stdio.resources_list_verdict dur responses) = true.
Proof.
  intros Hall. unfold Stdio.resources_list_verdict.
  destruct (Nat.leb 2 (length responses)) eqn:Hlen; [|reflexivity].
  destruct (second_exists _ Hlen) as (r0 & r1 & rest & ->).
  rewrite second_of. cbn [bind].
  simpl in Hall. rename Hall into Hok.
  destruct r1 as [| | | | | |d]; try discriminate.
  apply andb_true_iff in Hok as [Hres _].
  cbn [Py.contains_key bind]. rewrite has_key_lookup.
  destruct (Py.lookup d (lit "result")) as [res|] eqn:E; [|reflexivity].
  cbn [Spec.is_some Py.getitem]. rewrite E. cbn [bind].
  pose proof (member_ok_found _ _ _ Hres E) as Hr.
  destruct res as [| | | | | |rd]; try discriminate.
  apply andb_true_iff in Hr as [_ Ht].
  cbn [Py.get bind].
  destruct (Py.lookup rd (lit "resources")) as [t|] eqn:Et.
  - destruct (len_sized t (member_ok_found _ _ _ Ht Et)) as [n ->]. reflexivity.
  - reflexivity.
Qed.

Lemma call_tool_verdict_returns
  (tool_name : str) (dur : spec_float) (responses : list json) :
  Spec.opt_response_ok (nth_error responses 1) = true ->
  Spec.returns (Stdio.call_tool_verdict tool_name dur responses) = true.
Proof.
  intros Hall. unfold Stdio.call_tool_verdict.
  destruct (Nat.leb 2 (length responses)) eqn:Hlen; [|reflexivity].
  destruct (second_exists _ Hlen) as (r0 & r1 & rest & ->).
  rewrite second_of. cbn [bind].
  simpl in Hall. rename Hall into Hok.
  destruct r1 as [| | | | | |d]; try discriminate.
  apply andb_true_iff in Hok as [_ Herr].
  cbn [Py.contains_key bind]. rewrite !has_key_lookup.
  destruct (Py.lookup d (lit "result")) as [res|]; [reflexivity|].
  cbn [Spec.is_some].
  destruct (Py.lookup d (lit "error")) as [e|] eqn:E; [|reflexivity].
  cbn [Spec.is_some Py.getitem]. rewrite E. cbn [bind].
  pose proof (member_ok_found _ _ _ Herr E) as He.
  destruct e; try discriminate. reflexivity.
Qed.

(** C8, as amended.  When the response a scenario judges (the second of
    the sequence, or the single one) is an object whose [result] and
    [error] members, where present, are objects (the [tools] and
    [resources] of a result being collections or text), every scenario
    returns a verdict, also when responses are missing or carry neither
    member.  With fewer than two responses the two-step scenarios return
    the failing verdict that names what is missing, and so do the one-step
    scenarios with no response. *)
Theorem scenarios_return_verdicts
  (tool_name : str) (dur : spec_float) (responses : list json)
  (response : option json) :
  (Spec.opt_response_ok (nth_error responses 1) = true ->
   Spec.opt_response_ok response = true ->
   Spec.returns (Stdio.initialize_verdict dur response) = true
   /\ Spec.returns (Stdio.tools_list_verdict dur responses) = true
   /\ Spec.returns (Stdio.resources_list_verdict dur responses) = true
   /\ Spec.returns (Stdio.call_tool_verdict tool_name dur responses) = true
   /\ Spec.returns (Stdio.invalid_method_verdict dur response) = true)
  /\ (length responses < 2 ->
      Stdio.tools_list_verdict dur responses
      = Ok {| Stdio.name := lit "List Tools"; Stdio.passed := false;
              Stdio.message := lit "Failed to get tools list";
              Stdio.duration := dur; Stdio.response := None |}
      /\ Stdio.resources_list_verdict dur responses
         = Ok {| Stdio.name := lit "List Resources"; Stdio.passed := false;
                 Stdio.message := lit "Failed to get resources list";
                 Stdio.duration := dur; Stdio.response := None |}
      /\ Stdio.call_tool_verdict tool_name dur responses
         = Ok {| Stdio.name := lit "Call Tool: " ++ tool_name;
                 Stdio.passed := false;
                 Stdio.message := lit "No response from tool";
                 Stdio.duration := dur; Stdio.response := None |})
  /\ Stdio.initialize_verdict dur None
     = Ok {| Stdio.name := lit "MCP Initialize"; Stdio.passed := false;
             Stdio.message := lit "No valid initialize response";
             Stdio.duration := dur; Stdio.response := None |}
  /\ Stdio.invalid_method_verdict dur None
     = Ok {| Stdio.name := lit "Invalid Method Error Handling";
             Stdio.passed := false;
             Stdio.message := lit "Did not return error for invalid method";
             Stdio.duration := dur; Stdio.response := None |}.
Proof.
  split; [|split; [|split; reflexivity]].
  - intros Hall Hone. repeat split.
    + now apply initialize_verdict_returns.
    + now apply tools_list_verdict_returns.
    + now apply resources_list_verdict_returns.
    + now apply call_tool_verdict_returns.
    + now apply invalid_method_verdict_returns.
  - intros Hlen. destruct (short_sequence responses Hlen) as [Hleb Hnth].
    unfold Stdio.tools_list_verdict, Stdio.resources_list_verdict,
      Stdio.call_tool_verdict.
    rewrite Hleb, Hnth. repeat split.
Qed.

End Scenarios.

(* ================================================================= *)
(** ** The run of the suite *)

Section Run.
Context `{Runtime}.

(** The loop of [run_all_tests] appends the verdicts of the scenarios, in
    order, up to the first one that raises. *)
Lemma run_tests_sequence
  (ts : list Stdio.scenario) (i : nat) (w : nat -> Stdio.run_env)
  (acc : list Stdio.TestResult) :
  Stdio.run_tests ts i w acc
  = (rs <- mapM (fun x => x)
             (map (fun it => snd it (w (fst it))) (combine (seq i (length ts)) ts)) ;;
     Ok (acc ++ rs)).
Proof.
  revert i acc; induction ts as [|t ts IH]; intros i acc; simpl.
  - now rewrite app_nil_r.
  - destruct (t (w i)) as [r|e]; simpl; [|reflexivity].
    rewrite IH.
    destruct (mapM _ _) as [rs|e]; simpl; [|reflexivity].
    now rewrite <- app_assoc.
Qed.

Lemma sequence_returns {A} (l : list (res A)) :
  forallb Spec.returns l = true ->
  exists rs, l = map Ok rs /\ mapM (fun x => x) l = Ok rs.
Proof.
  induction l as [|x l IH]; simpl; intros Hall.
  - exists []. split; reflexivity.
  - apply andb_true_iff in Hall as [Hx Hl].
    destruct x as [a|e]; [|discriminate].
    destruct (IH Hl) as (rs & -> & E). exists (a :: rs). simpl.
    rewrite E. split; reflexivity.
Qed.

Lemma sequence_raises {A} (l : list (res A)) :
  forallb Spec.returns l = false -> exists e, mapM (fun x => x) l = Raise e.
Proof.
  induction l as [|x l IH]; simpl; intros Hall; [discriminate|].
  destruct x as [a|e]; simpl in *; [|eauto].
  destruct (IH Hall) as [e ->]. simpl. eauto.
Qed.

Lemma all_counted {A} (f : A -> bool) (l : list A) :
  Nat.eqb (length (filter f l)) (length l) = forallb f l.
Proof.
  induction l as [|a l IH]; simpl; [reflexivity|].
  destruct (f a); simpl; [exact IH|].
  apply Nat.eqb_neq. pose proof (filter_length_le f l). lia.
Qed.

Lemma passes_of_returned (rs : list Stdio.TestResult) :
  forallb Spec.passes (map Ok rs) = forallb Stdio.passed rs.
Proof. induction rs as [|r rs IH]; simpl; [reflexivity|]. now rewrite IH. Qed.


Lemma passes_returns (l : list (res Stdio.TestResult)) :
  forallb Spec.passes l = true -> forallb Spec.returns l = true.
Proof.
  induction l as [|x l IH]; simpl; [reflexivity|].
  intros E. apply andb_true_iff in E as [Ex El].
  rewrite (IH El). now destruct x.
Qed.

Lemma suite_run (img : str) (tmo : Z) (vb : bool) (w : nat -> Stdio.run_env) :
  Stdio.run_tests (Stdio.tests (Stdio.new_tester img tmo vb)) 0 w []
  = mapM (fun x => x) (Spec.suite_results (Stdio.new_tester img tmo vb) w).
Proof.
  rewrite run_tests_sequence. unfold Spec.suite_results.
  destruct (mapM _ _); reflexivity.
Qed.

(** The exit status is 0 exactly when every scenario of the suite returns
    a passing verdict; otherwise it is 1. *)
Lemma exit_status_zero_iff
  (img : str) (tmo : Z) (vb : bool) (w : nat -> Stdio.run_env) :
  Stdio.main img tmo vb w
  = if forallb Spec.passes (Spec.suite_results (Stdio.new_tester img tmo vb) w)
    then 0%Z else 1%Z.
Proof.
  unfold Stdio.main, Stdio.run_all_tests.
  cbn [Stdio.results Stdio.new_tester]. fold (Stdio.new_tester img tmo vb).
  rewrite suite_run.
  destruct (forallb Spec.returns
              (Spec.suite_results (Stdio.new_tester img tmo vb) w)) eqn:Hret.
  - destruct (sequence_returns _ Hret) as (rs & E & ->). rewrite E.
    cbn [bind]. now rewrite all_counted, passes_of_returned.
  - destruct (sequence_raises _ Hret) as [e ->]. cbn [bind].
    destruct (forallb Spec.passes _) eqn:Hp; [|reflexivity].
    apply passes_returns in Hp. congruence.
Qed.


End Run.

(* ================================================================= *)
(** ** The schema rules *)

Section Rules.
Context `{Runtime}.

Lemma critical_prefix (rest : str) : Schema.is_critical (Schema.cross ++ rest) = true.
Proof. apply startswith_app. Qed.






Lemma check_field_findings (resource : dict) (field : str) :
  Schema.check_field (JDict resource) (Spec.resource_uri resource) field
  = Ok (Spec.field_findings resource field).
Proof.
  unfold Schema.check_field, Spec.field_findings.
  cbn [Py.contains_key Py.getitem bind]. rewrite has_key_lookup.
  destruct (Py.lookup resource field) as [v|]; [|reflexivity].
  destruct v; reflexivity.
Qed.

Lemma field_findings_critical (resource : dict) (field : str) (m : str) :
  In m (Spec.field_findings resource field) -> Schema.is_critical m = true.
Proof.
  unfold Spec.field_findings.
  destruct (Py.lookup resource field) as [v|]; [destruct v|];
    simpl; intros Hin; try contradiction;
    destruct Hin as [<-|[]]; apply critical_prefix.
Qed.

Lemma validate_resource_schema_findings (resource : dict) :
  Schema.validate_resource_schema (JDict resource)
  = Ok (Spec.field_findings resource (lit "uri")
        ++ Spec.field_findings resource (lit "name")
        ++ Spec.field_findings resource (lit "mimeType")).
Proof.
  unfold Schema.validate_resource_schema. cbn [Py.get bind].
  fold (Spec.resource_uri resource).
  unfold Schema.required_fields. cbn [mapM].
  rewrite !check_field_findings. cbn [bind concat].
  now rewrite app_nil_r.
Qed.

(** C9.  The findings of a resource are those of [uri], of [name] and of
    [mimeType], in this order.  A missing [mimeType] yields exactly one
    finding for that field: a blocking one that names the resource's uri
    and the field.  Each of the three fields yields one blocking finding
    when it is missing or is not a text, and none when it is a text. *)
Theorem resource_field_findings (resource : dict) :
  Schema.validate_resource_schema (JDict resource)
  = Ok (Spec.field_findings resource (lit "uri")
        ++ Spec.field_findings resource (lit "name")
        ++ Spec.field_findings resource (lit "mimeType"))
  /\ (Py.lookup resource (lit "mimeType") = None ->
      Spec.field_findings resource (lit "mimeType")
      = [Schema.missing_field_msg (Spec.resource_uri resource) (lit "mimeType")]
      /\ Schema.is_critical
           (Schema.missing_field_msg (Spec.resource_uri resource) (lit "mimeType")) = true
      /\ contains (Schema.missing_field_msg (Spec.resource_uri resource) (lit "mimeType"))
           (py_str (Spec.resource_uri resource)) = true
      /\ contains (Schema.missing_field_msg (Spec.resource_uri resource) (lit "mimeType"))
           (lit "mimeType") = true)
  /\ (forall field,
        (Spec.present_text (Py.lookup resource field) = false ->
         exists m, Spec.field_findings resource field = [m]
                   /\ Schema.is_critical m = true
                   /\ contains m field = true)
        /\ (forall s, Py.lookup resource field = Some (JStr s) ->
            Spec.field_findings resource field = [])).
Proof.
  split; [|split].
  - apply validate_resource_schema_findings.
  - intros E. unfold Spec.field_findings. rewrite E.
    split; [reflexivity|split; [|split]].
    + apply critical_prefix.
    + unfold Schema.missing_field_msg.
      apply (contains_skip Schema.cross), (contains_skip (lit " Resource ")).
      apply contains_here, startswith_app.
    + unfold Schema.missing_field_msg.
      apply (contains_skip Schema.cross), (contains_skip (lit " Resource ")),
        (contains_skip (py_str (Spec.resource_uri resource))),
        (contains_skip (lit ": missing required field '")).
      apply contains_here, startswith_app.
  - intros field. split.
    + unfold Spec.field_findings.
      destruct (Py.lookup resource field) as [v|]; simpl.
      * destruct v; simpl; try discriminate; intros _;
          (eexists; split; [reflexivity|split; [apply critical_prefix|]]);
          unfold Schema.field_type_msg;
          apply (contains_skip Schema.cross), (contains_skip (lit " Resource ")),
            (contains_skip (py_str (Spec.resource_uri resource))),
            (contains_skip (lit ": '"));
          apply contains_here, startswith_app.
      * intros _. eexists. split; [reflexivity|split; [apply critical_prefix|]].
        unfold Schema.missing_field_msg.
        apply (contains_skip Schema.cross), (contains_skip (lit " Resource ")),
          (contains_skip (py_str (Spec.resource_uri resource))),
          (contains_skip (lit ": missing required field '")).
        apply contains_here, startswith_app.
    + intros s E. unfold Spec.field_findings. now rewrite E.
Qed.

End Rules.

(* ================================================================= *)
(** ** Capability retrieval and the validator's exit status *)

Section Validator.
Context `{Runtime}.










(** One decoded line that can be filed is filed. *)
Lemma file_response (d : Py.kdict) (r : json) :
  Spec.filable r = true ->
  (has_id <- Py.contains_key (lit "id") r ;;
   keep <- (if has_id then Py.contains_key (lit "result") r else Ok false) ;;
   if keep then
     v <- Py.getitem r (lit "result") ;;
     k <- Py.getitem r (lit "id") ;;
     Py.setitem d k v
   else Ok d)
  = Ok (Spec.record d r).
Proof.
  destruct r; simpl; try discriminate. rewrite !has_key_lookup.
  destruct (Py.lookup d0 (lit "id")) as [k|]; simpl; [|reflexivity].
  destruct (Py.lookup d0 (lit "result")) as [v|]; simpl; [|reflexivity].
  intros Hk. unfold Py.setitem.
  destruct k; simpl in *; try discriminate; reflexivity.
Qed.

Lemma collect_step_skips (d : Py.kdict) (raw : str) :
  is_response_line (strip raw) = false \/ json_loads (strip raw) = None ->
  Schema.collect_step (Ok d) raw = Ok d.
Proof.
  unfold Schema.collect_step. cbn [bind].
  destruct (is_response_line (strip raw)); [|reflexivity].
  intros [E|E]; [discriminate|]. now rewrite E.
Qed.

Lemma collect_step_files (d : Py.kdict) (raw : str) (r : json) :
  is_response_line (strip raw) = true -> json_loads (strip raw) = Some r ->
  Spec.filable r = true ->
  Schema.collect_step (Ok d) raw = Ok (Spec.record d r).
Proof.
  intros Hq Hd Hr. unfold Schema.collect_step. cbn [bind].
  rewrite Hq, Hd. now apply file_response.
Qed.

Lemma collect_from (lines : list str) (d : Py.kdict) :
  forallb Spec.filable
    (flat_map (fun l => Spec.opt_list (json_loads l))
       (filter is_response_line (map strip lines))) = true ->
  fold_left Schema.collect_step lines (Ok d)
  = Ok (fold_left Spec.record
          (flat_map (fun l => Spec.opt_list (json_loads l))
             (filter is_response_line (map strip lines))) d).
Proof.
  revert d; induction lines as [|raw lines IH]; intros d; [reflexivity|].
  cbn [map filter fold_left].
  destruct (is_response_line (strip raw)) eqn:Hq; cbn [flat_map].
  - destruct (json_loads (strip raw)) as [r|] eqn:Hd;
      cbn [Spec.opt_list app forallb fold_left].
    + intros Hall. apply andb_true_iff in Hall as [Hr Hall].
      rewrite (collect_step_files d raw Hq Hd Hr). now apply IH.
    + rewrite collect_step_skips by now right. apply IH.
  - rewrite collect_step_skips by now left. apply IH.
Qed.



(** *** Exit status *)









End Validator.

(* ================================================================= *)
(** ** The model on concrete sessions *)

#[local] Existing Instance Ref.runtime.

(** C2: after a timeout the process is still running and no kill was
    issued. *)
Lemma timeout_leaves_process_running :
  proc_after TimedOut
    (snd (Stdio.send_sequence Sample.tester Sample.tools_list_msgs TimedOut))
  = Running
  /\ snd (Stdio.send_sequence Sample.tester Sample.tools_list_msgs TimedOut)
     = [Popen (docker_cmd (lit "hgnc-mcp:latest"));
        Communicate Sample.tools_list_msgs 30%Z].
Proof. split; reflexivity. Qed.



(** C4 on a session whose tool call is answered with the error
    [bad args]. *)
Lemma call_tool_error_witness :
  exists v,
    Stdio.test_call_tool Sample.tester (lit "POST__tools_find")
      (JDict [(lit "query", JStr (lit "BRCA"))])
      (Sample.finished [Sample.log_line; Sample.init_line; Sample.bad_args_line])
    = Ok v
    /\ Stdio.passed v = false
    /\ Stdio.message v = lit "Tool error: " ++ lit "bad args"
    /\ contains (Stdio.message v) (lit "bad args") = true.
Proof.
  eapply (call_tool_error_is_reported Sample.tester (lit "POST__tools_find")
            (JDict [(lit "query", JStr (lit "BRCA"))])
            (Sample.finished [Sample.log_line; Sample.init_line; Sample.bad_args_line])
            (r0 := Sample.init_response)
            (r1 := [(lit "jsonrpc", JStr (lit "2.0")); (lit "id", JInt 2);
                    (lit "error", JDict [(lit "message", JStr (lit "bad args"))])])
            (rest := [])).
  - reflexivity.
  - vm_compute. reflexivity.
  - reflexivity.
  - reflexivity.
  - reflexivity.
Defined.





(** C8: a second response whose result is a list makes the tools-list
    scenario raise, on the response values and on the output text. *)
Lemma list_result_raises :
  Stdio.tools_list_verdict Sample.no_time
    [Sample.init_response; Sample.list_result_response] = Raise AttributeError
  /\ Stdio.test_tools_list Sample.tester
       (Sample.finished [Sample.init_line; Sample.list_result_line])
     = Raise AttributeError.
Proof. split; vm_compute; reflexivity. Qed.

(** C8 on a refused tool call and on a sequence of one response. *)
Lemma scenarios_return_witness :
  (Spec.returns (Stdio.initialize_verdict Sample.no_time (Some Sample.init_response)) = true
   /\ Spec.returns (Stdio.tools_list_verdict Sample.no_time
                      [Sample.init_response; Sample.bad_args_response]) = true
   /\ Spec.returns (Stdio.resources_list_verdict Sample.no_time
                      [Sample.init_response; Sample.bad_args_response]) = true
   /\ Spec.returns (Stdio.call_tool_verdict (lit "POST__tools_find") Sample.no_time
                      [Sample.init_response; Sample.bad_args_response]) = true
   /\ Spec.returns (Stdio.invalid_method_verdict Sample.no_time
                      (Some Sample.init_response)) = true)
  /\ Stdio.tools_list_verdict Sample.no_time [Sample.init_response]
     = Ok {| Stdio.name := lit "List Tools"; Stdio.passed := false;
             Stdio.message := lit "Failed to get tools list";
             Stdio.duration := Sample.no_time; Stdio.response := None |}.
Proof.
  split.
  - apply (scenarios_return_verdicts (lit "POST__tools_find") Sample.no_time
             [Sample.init_response; Sample.bad_args_response]
             (Some Sample.init_response)); reflexivity.
  - apply (scenarios_return_verdicts (lit "POST__tools_find") Sample.no_time
             [Sample.init_response] None). simpl. lia.
Defined.

(** C9 on a resource with [uri] and [name] and no [mimeType]. *)
Lemma resource_findings_witness :
  Schema.validate_resource_schema (JDict Sample.genes_resource)
  = Ok [Schema.missing_field_msg (JStr (lit "hgnc://genes")) (lit "mimeType")]
  /\ contains (Schema.missing_field_msg (JStr (lit "hgnc://genes")) (lit "mimeType"))
       (lit "hgnc://genes") = true.
Proof.
  destruct (resource_field_findings Sample.genes_resource) as (Hall & Hmime & _).
  split.
  - rewrite Hall. reflexivity.
  - apply (Hmime eq_refl).
Defined.



(* ================================================================= *)
(** ** Further properties: framing and scanning *)



Lemma startswith_nil (s : str) : startswith s [] = true.
Proof. now destruct s. Qed.



Section MoreTransport.
Context `{Runtime}.



End MoreTransport.

(* ================================================================= *)
(** ** Further properties: the scenarios and the run *)

Section MoreScenarios.
Context `{Runtime}.

Lemma truthy_of_lookup (d : dict) (k : str) (v : json) :
  Py.lookup d k = Some v -> Py.truthy (JDict d) = true.
Proof. destruct d; [discriminate|reflexivity]. Qed.

Lemma send_message_head
  (self : Stdio.MCPStdioTester) (message : json) (stdout stderr : str) :
  fst (Stdio.send_message self message (Completed stdout stderr))
  = hd_error (Spec.recovered stdout).
Proof. cbn [Stdio.send_message fst]. apply first_response_head. Qed.

(** X3.  The initialize scenario judges the first recovered response.  A
    [result] object with a [protocolVersion] gives a passing verdict whose
    message is ["Protocol version: "] followed by that value; a response
    without [result], or whose result object has no [protocolVersion],
    gives the failing verdict ["No valid initialize response"].  Either
    verdict carries the response. *)
Theorem initialize_judges_first_response
  (self : Stdio.MCPStdioTester) (env : Stdio.run_env) (stdout stderr : str)
  (d : dict) (rest : list json) :
  Stdio.out env = Completed stdout stderr ->
  Spec.recovered stdout = JDict d :: rest ->
  (forall res v,
     Py.lookup d (lit "result") = Some (JDict res) ->
     Py.lookup res (lit "protocolVersion") = Some v ->
     Stdio.test_initialize self env
     = Ok {| Stdio.name := lit "MCP Initialize"; Stdio.passed := true;
             Stdio.message := lit "Protocol version: " ++ py_str v;
             Stdio.duration := Stdio.elapsed env;
             Stdio.response := Some (JDict d) |})
  /\ (Py.lookup d (lit "result") = None
      \/ (exists res, Py.lookup d (lit "result") = Some (JDict res)
                      /\ Py.lookup res (lit "protocolVersion") = None) ->
      Stdio.test_initialize self env
      = Ok {| Stdio.name := lit "MCP Initialize"; Stdio.passed := false;
              Stdio.message := lit "No valid initialize response";
              Stdio.duration := Stdio.elapsed env;
              Stdio.response := Some (JDict d) |}).
Proof.
  intros Hout Hrec. unfold Stdio.test_initialize.
  rewrite Hout, send_message_head, Hrec. cbn [hd_error].
  unfold Stdio.initialize_verdict. split.
  - intros res v Hres Hv. rewrite (truthy_of_lookup _ _ Hres).
    cbn [Py.contains_key bind]. rewrite has_key_lookup, Hres.
    cbn [Spec.is_some Py.getitem]. rewrite Hres.
    cbn [bind Py.contains_key]. rewrite has_key_lookup, Hv.
    cbn [Spec.is_some Py.getitem]. rewrite Hv. reflexivity.
  - intros [Hres|(res & Hres & Hv)].
    + destruct (Py.truthy (JDict d)); [|reflexivity].
      cbn [Py.contains_key bind]. rewrite has_key_lookup, Hres. reflexivity.
    + rewrite (truthy_of_lookup _ _ Hres).
      cbn [Py.contains_key bind]. rewrite has_key_lookup, Hres.
      cbn [Spec.is_some Py.getitem]. rewrite Hres.
      cbn [bind Py.contains_key]. rewrite has_key_lookup, Hv. reflexivity.
Qed.

(** X4.  The invalid-method scenario passes exactly on an error: when the
    first recovered response has an [error] object the verdict passes,
    whatever else the response holds, with the message
    ["Correctly returned error: "] followed by the error's [message]
    (["Unknown"] when it has none); when it has no [error] the verdict
    fails. *)
Theorem invalid_method_passes_on_error
  (self : Stdio.MCPStdioTester) (env : Stdio.run_env) (stdout stderr : str)
  (d : dict) (rest : list json) :
  Stdio.out env = Completed stdout stderr ->
  Spec.recovered stdout = JDict d :: rest ->
  (forall err,
     Py.lookup d (lit "error") = Some (JDict err) ->
     Stdio.test_invalid_method self env
     = Ok {| Stdio.name := lit "Invalid Method Error Handling";
             Stdio.passed := true;
             Stdio.message :=
               lit "Correctly returned error: "
               ++ py_str (match Py.lookup err (lit "message") with
                          | Some m => m
                          | None => JStr (lit "Unknown")
                          end);
             Stdio.duration := Stdio.elapsed env;
             Stdio.response := Some (JDict d) |})
  /\ (Py.lookup d (lit "error") = None ->
      Stdio.test_invalid_method self env
      = Ok {| Stdio.name := lit "Invalid Method Error Handling";
              Stdio.passed := false;
              Stdio.message := lit "Did not return error for invalid method";
              Stdio.duration := Stdio.elapsed env;
              Stdio.response := Some (JDict d) |}).
Proof.
  intros Hout Hrec. unfold Stdio.test_invalid_method.
  rewrite Hout, send_message_head, Hrec. cbn [hd_error].
  unfold Stdio.invalid_method_verdict. split.
  - intros err Herr. rewrite (truthy_of_lookup _ _ Herr).
    cbn [Py.contains_key bind]. rewrite has_key_lookup, Herr.
    cbn [Spec.is_some Py.getitem]. rewrite Herr. reflexivity.
  - intros Herr. destruct (Py.truthy (JDict d)); [|reflexivity].
    cbn [Py.contains_key bind]. rewrite has_key_lookup, Herr. reflexivity.
Qed.

(** X5.  In the tool-call scenario a [result] member decides: when the
    second response has one, of any value and also beside an [error], the
    verdict passes with ["Tool executed successfully"]; when it has
    neither [result] nor [error] the verdict fails with
    ["No response from tool"] and still carries the response. *)
Theorem call_tool_result_decides
  (tool_name : str) (dur : spec_float) (r0 : json) (d : dict) (rest : list json) :
  (forall x,
     Py.lookup d (lit "result") = Some x ->
     Stdio.call_tool_verdict tool_name dur (r0 :: JDict d :: rest)
     = Ok {| Stdio.name := lit "Call Tool: " ++ tool_name;
             Stdio.passed := true;
             Stdio.message := lit "Tool executed successfully";
             Stdio.duration := dur;
             Stdio.response := Some (JDict d) |})
  /\ (Py.lookup d (lit "result") = None ->
      Py.lookup d (lit "error") = None ->
      Stdio.call_tool_verdict tool_name dur (r0 :: JDict d :: rest)
      = Ok {| Stdio.name := lit "Call Tool: " ++ tool_name;
              Stdio.passed := false;
              Stdio.message := lit "No response from tool";
              Stdio.duration := dur;
              Stdio.response := Some (JDict d) |}).
Proof.
  unfold Stdio.call_tool_verdict. cbn [length Nat.leb]. rewrite second_of.
  cbn [bind Py.contains_key nth_error]. rewrite !has_key_lookup. split.
  - intros x Hres. rewrite Hres. reflexivity.
  - intros Hres Herr. rewrite Hres, Herr. reflexivity.
Qed.

(** X6.  The list scenarios report [len] of the listed member: when the
    second response has a [result] object, the tools-list scenario passes
    with ["Found n tools"] and the resources-list scenario with
    ["Found n resources"], [n] being the length of the [tools]
    (respectively [resources]) member and 0 when the member is absent. *)
Theorem list_scenarios_count_entries
  (dur : spec_float) (r0 : json) (d res : dict) (rest : list json) :
  Py.lookup d (lit "result") = Some (JDict res) ->
  (forall n,
     Spec.member_len (Py.lookup res (lit "tools")) = Some n ->
     Stdio.tools_list_verdict dur (r0 :: JDict d :: rest)
     = Ok {| Stdio.name := lit "List Tools"; Stdio.passed := true;
             Stdio.message := lit "Found " ++ of_nat n ++ lit " tools";
             Stdio.duration := dur; Stdio.response := Some (JDict d) |})
  /\ (forall n,
        Spec.member_len (Py.lookup res (lit "resources")) = Some n ->
        Stdio.resources_list_verdict dur (r0 :: JDict d :: rest)
        = Ok {| Stdio.name := lit "List Resources"; Stdio.passed := true;
                Stdio.message := lit "Found " ++ of_nat n ++ lit " resources";
                Stdio.duration := dur; Stdio.response := Some (JDict d) |}).
Proof.
  intros Hres.
  unfold Stdio.tools_list_verdict, Stdio.resources_list_verdict.
  cbn [length Nat.leb]. rewrite second_of.
  cbn [bind Py.contains_key]. rewrite has_key_lookup, Hres.
  cbn [Spec.is_some Py.getitem]. rewrite Hres. cbn [bind Py.get].
  split; intros n Hn.
  - destruct (Py.lookup res (lit "tools")) as [t|]; simpl in Hn.
    + destruct t; try discriminate; injection Hn as <-; reflexivity.
    + injection Hn as <-. reflexivity.
  - destruct (Py.lookup res (lit "resources")) as [t|]; simpl in Hn.
    + destruct t; try discriminate; injection Hn as <-; reflexivity.
    + injection Hn as <-. reflexivity.
Qed.

(** X7.  The two-step scenarios match responses to requests by position
    and look at the second response only: the verdict is the same whatever
    the response before it (the answer to the handshake) and the responses
    after it are. *)
Theorem two_step_verdicts_by_position
  (tool_name : str) (dur : spec_float) (r0 r0' r1 : json)
  (rest rest' : list json) :
  Stdio.tools_list_verdict dur (r0 :: r1 :: rest)
  = Stdio.tools_list_verdict dur (r0' :: r1 :: rest')
  /\ Stdio.resources_list_verdict dur (r0 :: r1 :: rest)
     = Stdio.resources_list_verdict dur (r0' :: r1 :: rest')
  /\ Stdio.call_tool_verdict tool_name dur (r0 :: r1 :: rest)
     = Stdio.call_tool_verdict tool_name dur (r0' :: r1 :: rest').
Proof.
  unfold Stdio.tools_list_verdict, Stdio.resources_list_verdict,
    Stdio.call_tool_verdict.
  cbn [length Nat.leb nth_error]. rewrite !second_of.
  repeat split.
Qed.

End MoreScenarios.

Section MoreRun.
Context `{Runtime}.

Lemma one_step_pass_needs_response
  (self : Stdio.MCPStdioTester) (env : Stdio.run_env) :
  Spec.passes (Stdio.test_initialize self env) = true
  \/ Spec.passes (Stdio.test_invalid_method self env) = true ->
  exists stdout stderr,
    Stdio.out env = Completed stdout stderr
    /\ 1 <= length (Spec.recovered stdout).
Proof.
  unfold Stdio.test_initialize, Stdio.test_invalid_method.
  destruct env as [o t]. cbn [Stdio.out Stdio.elapsed].
  destruct o as [|stdout stderr| |];
    try (intros [E|E]; cbn in E; discriminate).
  rewrite !send_message_head. intros Hp. exists stdout, stderr.
  split; [reflexivity|].
  destruct (Spec.recovered stdout); [|simpl; lia].
  destruct Hp as [E|E]; cbn in E; discriminate.
Qed.

Lemma two_step_pass_needs_responses
  (self : Stdio.MCPStdioTester) (tool_name : str) (arguments : json)
  (env : Stdio.run_env) :
  Spec.passes (Stdio.test_tools_list self env) = true
  \/ Spec.passes (Stdio.test_resources_list self env) = true
  \/ Spec.passes (Stdio.test_call_tool self tool_name arguments env) = true ->
  exists stdout stderr,
    Stdio.out env = Completed stdout stderr
    /\ 2 <= length (Spec.recovered stdout).
Proof.
  unfold Stdio.test_tools_list, Stdio.test_resources_list, Stdio.test_call_tool.
  destruct env as [o t]. cbn [Stdio.out Stdio.elapsed].
  destruct o as [|stdout stderr| |];
    try (intros [E|[E|E]]; cbn in E; discriminate).
  cbn [Stdio.send_sequence fst]. rewrite scan_recovered.
  intros Hp. exists stdout, stderr. split; [reflexivity|].
  destruct (Spec.recovered stdout) as [|r0 [|r1 rest]]; [| |simpl; lia];
    destruct Hp as [E|[E|E]]; cbn in E; discriminate.
Qed.

(** X8.  Exit status 0 vouches for every exchange: when the runner exits
    with 0, each of the nine processes ran to its end and its output held
    the responses the scenario needs, one for the first and the last
    scenario and two for the others.  A server that cannot be started, or
    times out, or answers short, never yields exit status 0. *)
Theorem exit_zero_needs_every_exchange
  (img : str) (tmo : Z) (vb : bool) (w : nat -> Stdio.run_env) (i : nat) :
  Stdio.main img tmo vb w = 0%Z ->
  i < 9 ->
  exists stdout stderr,
    Stdio.out (w i) = Completed stdout stderr
    /\ Spec.needed i <= length (Spec.recovered stdout).
Proof.
  rewrite exit_status_zero_iff. intros Hz Hi.
  destruct (forallb Spec.passes _) eqn:Hall; [clear Hz|discriminate].
  unfold Spec.suite_results in Hall.
  cbn [Stdio.tests length seq combine map fst snd forallb] in Hall.
  repeat (apply andb_true_iff in Hall as [?Hp Hall]).
  do 9 (destruct i as [|i];
        [first [ apply (one_step_pass_needs_response (Stdio.new_tester img tmo vb));
                 auto; fail
               | apply (two_step_pass_needs_responses
                          (Stdio.new_tester img tmo vb) [] JNull);
                 auto; fail
               | eapply (two_step_pass_needs_responses (Stdio.new_tester img tmo vb));
                 right; right; eassumption ]|]).
  lia.
Qed.




End MoreRun.

(* ================================================================= *)
(** ** Further properties: the schema rules and the validator *)

Section MoreRules.
Context `{Runtime}.

(** X11.  The findings of a prompt object: one blocking finding when its
    [description] is present and not a text, then one when its
    [arguments] is present and not a list; so a prompt has no finding
    exactly when its description is absent or a text and its arguments
    are absent or a list, and never more than two. *)
Theorem prompt_findings (prompt : dict) :
  Schema.validate_prompt_schema (JDict prompt)
  = Ok ((if Spec.absent_or_text (Py.lookup prompt (lit "description")) then []
         else [Schema.cross ++ lit " Prompt " ++ py_str (Spec.prompt_name prompt)
               ++ lit ": 'description' must be a string"])
        ++ (if Spec.absent_or_list (Py.lookup prompt (lit "arguments")) then []
            else [Schema.cross ++ lit " Prompt " ++ py_str (Spec.prompt_name prompt)
                  ++ lit ": 'arguments' must be an array"]))
  /\ (Schema.validate_prompt_schema (JDict prompt) = Ok []
      <-> Spec.absent_or_text (Py.lookup prompt (lit "description"))
          && Spec.absent_or_list (Py.lookup prompt (lit "arguments")) = true).
Proof.
  assert (E : Schema.validate_prompt_schema (JDict prompt)
              = Ok ((if Spec.absent_or_text (Py.lookup prompt (lit "description"))
                     then []
                     else [Schema.cross ++ lit " Prompt "
                           ++ py_str (Spec.prompt_name prompt)
                           ++ lit ": 'description' must be a string"])
                    ++ (if Spec.absent_or_list (Py.lookup prompt (lit "arguments"))
                        then []
                        else [Schema.cross ++ lit " Prompt "
                              ++ py_str (Spec.prompt_name prompt)
                              ++ lit ": 'arguments' must be an array"]))).
  { unfold Schema.validate_prompt_schema. cbn [Py.get Py.contains_key bind].
    fold (Spec.prompt_name prompt). rewrite !has_key_lookup.
    destruct (Py.lookup prompt (lit "description")) as [x|] eqn:Ex;
      cbn [Spec.is_some Py.getitem Spec.absent_or_text]; try rewrite Ex;
      cbn [bind];
      destruct (Py.lookup prompt (lit "arguments")) as [a|] eqn:Ea;
      cbn [Spec.is_some Py.getitem Spec.absent_or_list bind]; try rewrite Ea;
      cbn [bind];
      try destruct (Py.is_str x); cbn [bind];
      try destruct (Py.is_list a); reflexivity. }
  split; [exact E|]. rewrite E.
  destruct (Spec.absent_or_text _), (Spec.absent_or_list _); simpl;
    split; intros Hx; try reflexivity; discriminate.
Qed.

Lemma field_findings_none (resource : dict) (field : str) :
  Spec.field_findings resource field = []
  <-> Spec.present_text (Py.lookup resource field) = true.
Proof.
  unfold Spec.field_findings, Spec.present_text.
  destruct (Py.lookup resource field) as [v|]; [destruct v|]; simpl;
    split; intros E; try reflexivity; discriminate.
Qed.

(** X12.  A resource object has no finding exactly when [uri], [name] and
    [mimeType] are all present and texts; it never has more than three. *)
Theorem resource_passes_iff_three_texts (resource : dict) :
  (Schema.validate_resource_schema (JDict resource) = Ok []
   <-> Spec.present_text (Py.lookup resource (lit "uri"))
       && Spec.present_text (Py.lookup resource (lit "name"))
       && Spec.present_text (Py.lookup resource (lit "mimeType")) = true)
  /\ exists issues,
       Schema.validate_resource_schema (JDict resource) = Ok issues
       /\ length issues <= 3.
Proof.
  rewrite validate_resource_schema_findings. split.
  - rewrite !andb_true_iff, <- !field_findings_none. split.
    + intros E. injection E as E.
      apply app_eq_nil in E as [E1 E]. apply app_eq_nil in E as [E2 E3]. auto.
    + intros [[-> ->] ->]. reflexivity.
  - eexists. split; [reflexivity|]. rewrite !length_app.
    unfold Spec.field_findings.
    destruct (Py.lookup resource (lit "uri")) as [[]|],
             (Py.lookup resource (lit "name")) as [[]|],
             (Py.lookup resource (lit "mimeType")) as [[]|]; simpl; lia.
Qed.

(** X13.  The [default] rule flags two shapes only: on a property object
    the check yields a finding exactly when the default is an empty list
    or a list whose first element is the text ["c"]; every other default
    (a scalar, an object, a list that starts with anything else) yields
    none, and there is never more than one finding. *)
Theorem default_rule_flags_two_shapes
  (tool_name : json) (prop_name : str) (prop_def : dict) :
  exists issues,
    Schema.check_default tool_name prop_name (JDict prop_def) = Ok issues
    /\ length issues <= 1
    /\ (issues = []
        <-> Spec.flagged_default (Py.lookup prop_def (lit "default")) = false).
Proof.
  unfold Schema.check_default. cbn [Py.contains_key Py.getitem bind].
  rewrite has_key_lookup.
  destruct (Py.lookup prop_def (lit "default")) as [v|]; cbn [Spec.is_some bind].
  - destruct v as [| | | | |[|first l]|]; cbn [Spec.flagged_default];
      try (eexists; split; [reflexivity|]; simpl; split; [lia|];
           split; intros E; try reflexivity; discriminate).
    destruct (Schema.is_text first (lit "c"));
      (eexists; split; [reflexivity|]; simpl; split; [lia|];
       split; intros E; try reflexivity; discriminate).
  - exists []. simpl. split; [reflexivity|]. split; [lia|]. split; reflexivity.
Qed.

(** X14.  A tool object without declared properties (no input schema, or
    an input schema object without [properties]) has the finding of its
    own description and no other: none when the description is absent or
    a text, else one blocking finding that ends with the name of the
    description's type. *)
Theorem tool_without_properties (tool : dict) :
  Py.lookup tool (lit "inputSchema") = None
  \/ (exists schema,
        Py.lookup tool (lit "inputSchema") = Some (JDict schema)
        /\ Py.lookup schema (lit "properties") = None) ->
  Schema.validate_tool_schema (JDict tool) = Ok (Spec.description_findings tool)
  /\ (forall d,
        Py.lookup tool (lit "description") = Some d -> Py.is_str d = false ->
        Spec.description_findings tool
        = [Schema.cross ++ lit " " ++ py_str (Spec.tool_name tool)
           ++ lit ": 'description' must be a string, got " ++ Py.type_name d]).
Proof.
  intros Hs. split.
  - unfold Schema.validate_tool_schema, Spec.description_findings.
    cbn [Py.get Py.contains_key bind]. fold (Spec.tool_name tool).
    rewrite !has_key_lookup.
    assert (Hi2 : (if Spec.is_some (Py.lookup tool (lit "inputSchema")) then
                     schema <- Py.getitem (JDict tool) (lit "inputSchema") ;;
                     has_properties <- Py.contains_key (lit "properties") schema ;;
                     if has_properties then
                       properties <- Py.getitem schema (lit "properties") ;;
                       props <- Py.items properties ;;
                       per_prop <- mapM (Schema.check_property (Spec.tool_name tool))
                                     props ;;
                       Ok (concat per_prop)
                     else Ok []
                   else Ok []) = Ok []).
    { destruct Hs as [Hs|(schema & Hs & Hp)]; rewrite Hs; [reflexivity|].
      cbn [Spec.is_some Py.getitem]. rewrite Hs.
      cbn [bind Py.contains_key]. rewrite has_key_lookup, Hp. reflexivity. }
    rewrite Hi2.
    destruct (Py.lookup tool (lit "description")) as [d|] eqn:Ed;
      cbn [Spec.is_some Py.getitem]; [rewrite Ed|]; cbn [bind].
    + destruct d; cbn [Py.is_str bind]; now rewrite ?app_nil_r.
    + reflexivity.
  - intros d Ed Hd. unfold Spec.description_findings. rewrite Ed.
    destruct d; try reflexivity. discriminate.
Qed.

(** X15.  The three validators start by reading the entry's name or uri
    with [get]: on an entry that is not an object each raises
    [AttributeError] and returns no finding. *)
Theorem validators_raise_on_non_objects (entry : json) :
  Spec.is_dict entry = false ->
  Schema.validate_tool_schema entry = Raise AttributeError
  /\ Schema.validate_prompt_schema entry = Raise AttributeError
  /\ Schema.validate_resource_schema entry = Raise AttributeError.
Proof. destruct entry; try discriminate; intros _; repeat split. Qed.

End MoreRules.

Section MoreValidator.
Context `{Runtime}.

Lemma classified_critical (rest : str) :
  Spec.classified (Schema.cross ++ rest) = true.
Proof.
  unfold Spec.classified, Schema.is_critical, Schema.is_warning.
  cbn [app Schema.cross Schema.warning_sign startswith].
  now rewrite startswith_nil.
Qed.

Lemma classified_warning (rest : str) :
  Spec.classified (Schema.warning_sign ++ rest) = true.
Proof.
  unfold Spec.classified, Schema.is_critical, Schema.is_warning.
  cbn [app Schema.cross Schema.warning_sign startswith].
  now rewrite startswith_nil.
Qed.

(** The findings an equation [Ok l = Ok issues] names are classified. *)
Ltac classified_by E :=
  injection E as <-; cbn [forallb];
  unfold Schema.empty_default_msg, Schema.malformed_default_msg,
    Schema.prop_description_msg, Schema.missing_field_msg,
    Schema.field_type_msg;
  rewrite ?classified_critical, ?classified_warning; reflexivity.

Lemma forallb_concat {A} (P : A -> bool) (ls : list (list A)) :
  Forall (fun l => forallb P l = true) ls -> forallb P (concat ls) = true.
Proof.
  induction 1 as [|l ls Hl _ IH]; simpl; [reflexivity|].
  now rewrite forallb_app, Hl, IH.
Qed.

Lemma mapM_all {A B} (f : A -> res B) (Q : B -> Prop) (l : list A) (bs : list B) :
  (forall a b, f a = Ok b -> Q b) -> mapM f l = Ok bs -> Forall Q bs.
Proof.
  intros Hf. revert bs; induction l as [|a l IH]; intros bs E; simpl in E.
  - injection E as <-. constructor.
  - apply bind_ok in E as (b & Eb & E). apply bind_ok in E as (bs' & Ebs & E).
    injection E as <-. constructor; eauto.
Qed.

Lemma check_default_classified
  (tn : json) (p : str) (pd : json) (issues : list str) :
  Schema.check_default tn p pd = Ok issues ->
  forallb Spec.classified issues = true.
Proof.
  unfold Schema.check_default. intros E.
  apply bind_ok in E as (hd & _ & E). destruct hd; [|classified_by E].
  apply bind_ok in E as (dv & _ & E).
  destruct dv as [| | | | |[|first l]|]; try (classified_by E).
  destruct (Schema.is_text first (lit "c")); classified_by E.
Qed.

Lemma check_prop_description_classified
  (tn : json) (p : str) (pd : json) (issues : list str) :
  Schema.check_prop_description tn p pd = Ok issues ->
  forallb Spec.classified issues = true.
Proof.
  unfold Schema.check_prop_description. intros E.
  apply bind_ok in E as (hd & _ & E). destruct hd; [|classified_by E].
  apply bind_ok in E as (dv & _ & E).
  destruct (Py.is_str dv); classified_by E.
Qed.

Lemma check_property_classified
  (tn : json) (prop : str * json) (issues : list str) :
  Schema.check_property tn prop = Ok issues ->
  forallb Spec.classified issues = true.
Proof.
  unfold Schema.check_property. intros E.
  apply bind_ok in E as (a & Ea & E). apply bind_ok in E as (b & Eb & E).
  injection E as <-. rewrite forallb_app.
  now rewrite (check_default_classified _ _ _ Ea),
    (check_prop_description_classified _ _ _ Eb).
Qed.

Lemma validate_tool_schema_classified (tool : json) (issues : list str) :
  Schema.validate_tool_schema tool = Ok issues ->
  forallb Spec.classified issues = true.
Proof.
  unfold Schema.validate_tool_schema. intros E.
  apply bind_ok in E as (tn & _ & E). apply bind_ok in E as (hd & _ & E).
  apply bind_ok in E as (i1 & E1 & E). apply bind_ok in E as (hs & _ & E).
  apply bind_ok in E as (i2 & E2 & E). injection E as <-.
  rewrite forallb_app. apply andb_true_iff. split.
  - destruct hd; [|classified_by E1].
    apply bind_ok in E1 as (d & _ & E1).
    destruct (Py.is_str d); classified_by E1.
  - destruct hs; [|classified_by E2].
    apply bind_ok in E2 as (schema & _ & E2).
    apply bind_ok in E2 as (hp & _ & E2).
    destruct hp; [|classified_by E2].
    apply bind_ok in E2 as (properties & _ & E2).
    apply bind_ok in E2 as (props & _ & E2).
    apply bind_ok in E2 as (per_prop & Eper & E2). injection E2 as <-.
    apply forallb_concat.
    eapply mapM_all; [|exact Eper].
    intros a b. apply check_property_classified.
Qed.

Lemma validate_prompt_schema_classified (prompt : json) (issues : list str) :
  Schema.validate_prompt_schema prompt = Ok issues ->
  forallb Spec.classified issues = true.
Proof.
  unfold Schema.validate_prompt_schema. intros E.
  apply bind_ok in E as (tn & _ & E). apply bind_ok in E as (hd & _ & E).
  apply bind_ok in E as (i1 & E1 & E). apply bind_ok in E as (ha & _ & E).
  apply bind_ok in E as (i2 & E2 & E). injection E as <-.
  rewrite forallb_app. apply andb_true_iff. split.
  - destruct hd; [|classified_by E1].
    apply bind_ok in E1 as (d & _ & E1).
    destruct (Py.is_str d); classified_by E1.
  - destruct ha; [|classified_by E2].
    apply bind_ok in E2 as (a & _ & E2).
    destruct (Py.is_list a); classified_by E2.
Qed.

Lemma check_field_classified
  (resource uri : json) (field : str) (issues : list str) :
  Schema.check_field resource uri field = Ok issues ->
  forallb Spec.classified issues = true.
Proof.
  unfold Schema.check_field. intros E.
  apply bind_ok in E as (present & _ & E).
  destruct present; cbn [negb] in E; [|classified_by E].
  apply bind_ok in E as (v & _ & E).
  destruct (Py.is_str v); classified_by E.
Qed.

Lemma validate_resource_schema_classified (resource : json) (issues : list str) :
  Schema.validate_resource_schema resource = Ok issues ->
  forallb Spec.classified issues = true.
Proof.
  unfold Schema.validate_resource_schema. intros E.
  apply bind_ok in E as (uri & _ & E).
  apply bind_ok in E as (per_field & Eper & E). injection E as <-.
  apply forallb_concat.
  eapply mapM_all; [|exact Eper].
  intros a b. apply check_field_classified.
Qed.

Lemma validate_all_classified
  (validate : json -> res (list str)) (entries : json) (issues : list str) :
  (forall e l, validate e = Ok l -> forallb Spec.classified l = true) ->
  Schema.validate_all validate entries = Ok issues ->
  forallb Spec.classified issues = true.
Proof.
  intros Hv E. unfold Schema.validate_all in E.
  apply bind_ok in E as (n & _ & E). apply bind_ok in E as (es & _ & E).
  apply bind_ok in E as (per_entry & Eper & E). injection E as <-.
  apply forallb_concat.
  eapply mapM_all; [exact Hv|exact Eper].
Qed.

Lemma classified_counts (issues : list str) :
  forallb Spec.classified issues = true ->
  length (filter Schema.is_critical issues)
  + length (filter Schema.is_warning issues) = length issues.
Proof.
  induction issues as [|i issues IH]; simpl; [reflexivity|].
  intros E. apply andb_true_iff in E as [Ei E]. specialize (IH E).
  unfold Spec.classified in Ei.
  destruct (Schema.is_critical i), (Schema.is_warning i); simpl in *;
    try discriminate; lia.
Qed.

(** X16.  The summary accounts for every finding: when the validation of
    the three lists completes, each finding is either blocking or
    advisory and not both, so the number of critical issues and the number
    of warnings that [main] reports add up to the number of findings. *)
Theorem summary_counts_every_finding
  (caps : Schema.Capabilities) (issues : list str) :
  Schema.all_findings caps = Ok issues ->
  forallb Spec.classified issues = true
  /\ length (filter Schema.is_critical issues)
     + length (filter Schema.is_warning issues) = length issues.
Proof.
  intros E. assert (Hc : forallb Spec.classified issues = true).
  { unfold Schema.all_findings in E.
    apply bind_ok in E as (t & Et & E). apply bind_ok in E as (p & Ep & E).
    apply bind_ok in E as (r & Er & E). injection E as <-.
    rewrite !forallb_app.
    rewrite (validate_all_classified _ _ validate_tool_schema_classified Et),
      (validate_all_classified _ _ validate_prompt_schema_classified Ep),
      (validate_all_classified _ _ validate_resource_schema_classified Er).
    reflexivity. }
  split; [exact Hc|now apply classified_counts].
Qed.

Lemma no_capabilities_status (image : str) (o : outcome) :
  Schema.get_mcp_capabilities image o = Schema.no_capabilities ->
  Schema.main image o = 0%Z.
Proof. unfold Schema.main. now intros ->. Qed.

(** X17.  A server that gives nothing validates as clean: when the process
    cannot be started, times out, fails in the exchange, or ends without
    one output line that decodes as a response, [get_mcp_capabilities]
    returns three empty lists and the validator exits with status 0. *)
Theorem silent_server_exits_zero (image : str) (o : outcome) :
  Spec.recovered_of o = [] ->
  Schema.get_mcp_capabilities image o = Schema.no_capabilities
  /\ Schema.main image o = 0%Z.
Proof.
  intros Hrec.
  assert (Hcaps : Schema.get_mcp_capabilities image o = Schema.no_capabilities).
  { destruct o as [|stdout stderr| |]; try reflexivity.
    cbn [Spec.recovered_of] in Hrec.
    unfold Schema.get_mcp_capabilities, Schema.collect.
    unfold Spec.candidate_lines in Hrec.
    rewrite collect_from by (now rewrite Hrec). rewrite Hrec. reflexivity. }
  split; [exact Hcaps|now apply no_capabilities_status].
Qed.

End MoreValidator.

(* ================================================================= *)
(** ** Further properties: verdicts and stripped lines *)

Section MoreVerdicts.
Context `{Runtime}.








(** *** Stripped lines *)

Lemma lstrip_spaces (pre s : str) :
  forallb isspace pre = true -> lstrip (pre ++ s) = lstrip s.
Proof.
  induction pre as [|c pre IH]; simpl; [reflexivity|].
  intros E. apply andb_true_iff in E as [Ec E]. rewrite Ec. auto.
Qed.

Lemma lstrip_all_spaces (s : str) :
  lstrip s = [] <-> forallb isspace s = true.
Proof.
  induction s as [|c s IH]; simpl; [tauto|].
  destruct (isspace c); simpl; [exact IH|]. split; discriminate.
Qed.

Lemma lstrip_keeps_tail (s post : str) :
  lstrip s <> [] -> lstrip (s ++ post) = lstrip s ++ post.
Proof.
  induction s as [|c s IH]; simpl; [contradiction|].
  destruct (isspace c); auto.
Qed.

Lemma forallb_rev {A} (f : A -> bool) (l : list A) :
  forallb f (rev l) = forallb f l.
Proof.
  induction l as [|a l IH]; simpl; [reflexivity|].
  rewrite forallb_app, IH. simpl. rewrite andb_true_r. apply andb_comm.
Qed.

Lemma rstrip_spaces (s post : str) :
  forallb isspace post = true -> rstrip (s ++ post) = rstrip s.
Proof.
  intros E. unfold rstrip. rewrite rev_app_distr, lstrip_spaces; [reflexivity|].
  now rewrite forallb_rev.
Qed.

Lemma rstrip_all_spaces (s : str) : forallb isspace s = true -> rstrip s = [].
Proof.
  intros E. unfold rstrip.
  assert (Hl : lstrip (rev s) = []) by (apply lstrip_all_spaces; now rewrite forallb_rev).
  now rewrite Hl.
Qed.

(** White space around a text does not change what [strip] gives. *)
Lemma strip_padding (pre s post : str) :
  forallb isspace pre = true -> forallb isspace post = true ->
  strip (pre ++ s ++ post) = strip s.
Proof.
  intros Hpre Hpost. unfold strip. rewrite lstrip_spaces by exact Hpre.
  destruct (lstrip s) as [|c t] eqn:E.
  - apply lstrip_all_spaces in E.
    assert (Hall : forallb isspace (s ++ post) = true)
      by (now rewrite forallb_app, E, Hpost).
    apply lstrip_all_spaces in Hall. now rewrite Hall.
  - rewrite lstrip_keeps_tail by (rewrite E; discriminate).
    rewrite E. now apply rstrip_spaces.
Qed.

(** X19.  Lines are judged after stripping: white space before and after
    a line (indentation, a trailing carriage return) changes neither what
    the loop of [send_sequence] appends for it, nor what the loop of
    [send_message] returns, nor what [get_mcp_capabilities] files. *)
Theorem padding_is_ignored
  (pre line post : str) (acc : list json) (rest : list str)
  (filed : res Py.kdict) :
  forallb isspace pre = true -> forallb isspace post = true ->
  Stdio.scan_step acc (pre ++ line ++ post) = Stdio.scan_step acc line
  /\ Stdio.first_response ((pre ++ line ++ post) :: rest)
     = Stdio.first_response (line :: rest)
  /\ Schema.collect_step filed (pre ++ line ++ post)
     = Schema.collect_step filed line.
Proof.
  intros Hpre Hpost.
  unfold Stdio.scan_step, Schema.collect_step. cbn [Stdio.first_response].
  rewrite (strip_padding _ line _ Hpre Hpost). repeat split.
Qed.

End MoreVerdicts.

(* ================================================================= *)
(** ** The further properties on concrete sessions *)


(** X3 on a handshake answered after a log line. *)
Lemma initialize_witness :
  Stdio.test_initialize Sample.tester
    (Sample.finished [Sample.log_line; Sample.init_line])
  = Ok {| Stdio.name := lit "MCP Initialize"; Stdio.passed := true;
          Stdio.message := lit "Protocol version: " ++ lit "2024-11-05";
          Stdio.duration := Sample.no_time;
          Stdio.response := Some Sample.init_response |}.
Proof.
  assert (Hrec : Spec.recovered
                   (Sample.unlines [Sample.log_line; Sample.init_line])
                 = Sample.init_response :: [])
    by (vm_compute; reflexivity).
  destruct (initialize_judges_first_response Sample.tester
              (Sample.finished [Sample.log_line; Sample.init_line])
              eq_refl Hrec) as [Hpass _].
  apply (Hpass [(lit "protocolVersion", JStr (lit "2024-11-05"))]
           (JStr (lit "2024-11-05"))); reflexivity.
Defined.

(** X4 on an unknown method answered with an error. *)
Lemma invalid_method_witness :
  Stdio.test_invalid_method Sample.tester
    (Sample.finished [Sample.method_error_line])
  = Ok {| Stdio.name := lit "Invalid Method Error Handling";
          Stdio.passed := true;
          Stdio.message := lit "Correctly returned error: " ++ lit "Method not found";
          Stdio.duration := Sample.no_time;
          Stdio.response :=
            Some (JDict [(lit "jsonrpc", JStr (lit "2.0")); (lit "id", JInt 99);
                         (lit "error",
                          JDict [(lit "code", JInt (-32601));
                                 (lit "message", JStr (lit "Method not found"))])]) |}.
Proof.
  assert (Hrec : Spec.recovered (Sample.unlines [Sample.method_error_line])
                 = JDict [(lit "jsonrpc", JStr (lit "2.0")); (lit "id", JInt 99);
                          (lit "error",
                           JDict [(lit "code", JInt (-32601));
                                  (lit "message", JStr (lit "Method not found"))])]
                   :: [])
    by (vm_compute; reflexivity).
  destruct (invalid_method_passes_on_error Sample.tester
              (Sample.finished [Sample.method_error_line]) eq_refl Hrec)
    as [Hpass _].
  apply (Hpass [(lit "code", JInt (-32601));
                (lit "message", JStr (lit "Method not found"))]).
  reflexivity.
Defined.

(** X5 on a response that holds a null result beside an error. *)
Lemma call_tool_result_witness :
  Stdio.call_tool_verdict (lit "POST__tools_find") Sample.no_time
    [Sample.init_response; JDict Sample.both_members]
  = Ok {| Stdio.name := lit "Call Tool: " ++ lit "POST__tools_find";
          Stdio.passed := true;
          Stdio.message := lit "Tool executed successfully";
          Stdio.duration := Sample.no_time;
          Stdio.response := Some (JDict Sample.both_members) |}.
Proof.
  apply (proj1 (call_tool_result_decides (lit "POST__tools_find") Sample.no_time
                  Sample.init_response Sample.both_members []) JNull).
  reflexivity.
Defined.

(** X6 on a result that lists two tools. *)
Lemma list_count_witness :
  Stdio.tools_list_verdict Sample.no_time
    [Sample.init_response; Sample.tools_result_response]
  = Ok {| Stdio.name := lit "List Tools"; Stdio.passed := true;
          Stdio.message := lit "Found " ++ of_nat 2 ++ lit " tools";
          Stdio.duration := Sample.no_time;
          Stdio.response := Some Sample.tools_result_response |}.
Proof.
  destruct (list_scenarios_count_entries Sample.no_time Sample.init_response
              [(lit "jsonrpc", JStr (lit "2.0")); (lit "id", JInt 2);
               (lit "result",
                JDict [(lit "tools", JList [Sample.find_tool; Sample.find_tool])])]
              (res := [(lit "tools", JList [Sample.find_tool; Sample.find_tool])])
              [] eq_refl) as [Htools _].
  apply (Htools 2). reflexivity.
Defined.

(** X8 on the second exchange of a run that exits with 0. *)
Lemma exit_zero_witness :
  exists stdout stderr,
    Stdio.out (Sample.good_world 1) = Completed stdout stderr
    /\ Spec.needed 1 <= length (Spec.recovered stdout).
Proof.
  apply (exit_zero_needs_every_exchange (lit "hgnc-mcp:latest") 30%Z false
           Sample.good_world (i := 1)).
  - vm_compute. reflexivity.
  - lia.
Defined.


(** X14 on a tool whose description is a number. *)
Lemma tool_description_witness :
  Schema.validate_tool_schema (JDict Sample.numbered_tool)
  = Ok [Schema.cross ++ lit " " ++ lit "find"
        ++ lit ": 'description' must be a string, got " ++ lit "int"].
Proof.
  destruct (tool_without_properties Sample.numbered_tool (or_introl eq_refl))
    as [Hall Hone].
  rewrite Hall, (Hone (JInt 7) eq_refl eq_refl). reflexivity.
Defined.

(** X15 on an entry that is a text. *)
Lemma non_object_entry_witness :
  Schema.validate_tool_schema (JStr (lit "find")) = Raise AttributeError
  /\ Schema.validate_prompt_schema (JStr (lit "find")) = Raise AttributeError
  /\ Schema.validate_resource_schema (JStr (lit "find")) = Raise AttributeError.
Proof.
  apply (validators_raise_on_non_objects (JStr (lit "find"))). reflexivity.
Defined.

(** X16 on capability answers with one advisory finding. *)
Lemma summary_counts_witness :
  forallb Spec.classified
    [Schema.empty_default_msg (JStr (lit "find")) (lit "fields")] = true
  /\ length (filter Schema.is_critical
               [Schema.empty_default_msg (JStr (lit "find")) (lit "fields")])
     + length (filter Schema.is_warning
                 [Schema.empty_default_msg (JStr (lit "find")) (lit "fields")])
     = length [Schema.empty_default_msg (JStr (lit "find")) (lit "fields")].
Proof.
  apply (summary_counts_every_finding
           (Schema.get_mcp_capabilities (lit "hgnc-mcp:latest")
              Sample.empty_default_out)).
  vm_compute. reflexivity.
Defined.

(** X17 on a server that times out. *)
Lemma silent_server_witness :
  Schema.get_mcp_capabilities (lit "hgnc-mcp:latest") TimedOut
  = Schema.no_capabilities
  /\ Schema.main (lit "hgnc-mcp:latest") TimedOut = 0%Z.
Proof.
  apply (silent_server_exits_zero (lit "hgnc-mcp:latest") TimedOut).
  reflexivity.
Defined.

(** X19 on an indented line that ends with a carriage return. *)
Lemma padding_witness :
  Stdio.scan_step [] (lit "  " ++ Sample.init_line ++ [13%N])
  = Stdio.scan_step [] Sample.init_line
  /\ Stdio.first_response ((lit "  " ++ Sample.init_line ++ [13%N]) :: [])
     = Stdio.first_response (Sample.init_line :: [])
  /\ Schema.collect_step (Ok []) (lit "  " ++ Sample.init_line ++ [13%N])
     = Schema.collect_step (Ok []) Sample.init_line.
Proof.
  apply (padding_is_ignored (lit "  ") Sample.init_line [13%N] [] [] (Ok []));
    reflexivity.
Defined.
